(** * Sentiment dashboard: the client-side data pipeline

    A shallow embedding of the JavaScript sources of the dashboard:

    - [JS], [Env]        the operators of the language the code uses, and
                         the clock and random source it reads;
    - [Payload]          the JSON bodies exchanged with the server;
    - [RootApi]          the HTTP client of [api.js] (no local recovery);
    - [Api]              the HTTP client with local recovery and the three
                         mock generators;
    - [View]             the state and the rendering the components share;
    - [Dashboard]        the component with the nested-scores lookup and its
                         own six-record generator;
    - [LegacyDashboard]  the component that simulates one record locally
                         when the request fails;
    - [Polling]          the real-time list over a sequence of polls;
    - [Backend]          the aggregation and forecasting policies that run
                         on the server, which is not among the sources;
    - [Props]            the vocabulary of the statements.

    Conventions.  JavaScript numbers are modelled by exact rationals [Q]
    (no rounding; every bound below is stated closed so that it survives
    rounding to nearest).  [Math.random] and the clock are read from an
    explicit [World] that is threaded through the code in evaluation
    order.  A promise is modelled by its [Outcome].  Dates are instants in
    milliseconds; what the host's locale prints for an instant is kept
    symbolic ([TimeString], [DateString]), as no code looks into it. *)

From Stdlib Require Import List String ZArith QArith Qround Qminmax Lia Lqa Bool Sorted.
Import ListNotations.

Open Scope Z_scope.

(* ================================================================== *)
(** ** JavaScript values and operators *)

Module JS.

(** A numeric JSON field as the code can observe it: absent, [null], a
    number, or (after arithmetic on an absent field) [NaN]. *)
Inductive jsval : Type :=
| Undefined
| Null
| NaN
| Num (q : Q).

(** [v == null] : the test behind [??] and [?.]. *)
Definition nullish (v : jsval) : bool :=
  match v with
  | Undefined | Null => true
  | NaN | Num _ => false
  end.

(** [!!v] : the test behind [||] and [&&]. *)
Definition truthy (v : jsval) : bool :=
  match v with
  | Undefined | Null | NaN => false
  | Num q => negb (Qeq_bool q 0)
  end.

(** [a || b] on values whose right operand has no effect. *)
Definition or_else (a b : jsval) : jsval :=
  if truthy a then a else b.

(** [v + k] and [v - k] for a numeric literal [k]. *)
Definition add (v : jsval) (k : Q) : jsval :=
  match v with
  | Undefined | NaN => NaN
  | Null => Num k
  | Num q => Num (q + k)
  end.

Definition sub (v : jsval) (k : Q) : jsval :=
  match v with
  | Undefined | NaN => NaN
  | Null => Num (- k)
  | Num q => Num (q - k)
  end.

(** [a <= b] : false as soon as one side is not a number. *)
Definition le (a b : jsval) : Prop :=
  match a, b with
  | Num x, Num y => (x <= y)%Q
  | _, _ => False
  end.

(** A string as the code builds or receives it. *)
Inductive text : Type :=
| Literal (s : string)
| TimeString (t : Z)    (* [new Date(t).toLocaleTimeString()] *)
| DateString (t : Z).   (* [new Date(t).toLocaleDateString('en-US',
                             { month: 'numeric', day: 'numeric' })] *)

Definition truthy_text (x : text) : bool :=
  match x with
  | Literal s => negb (String.eqb s EmptyString)
  | TimeString _ | DateString _ => true
  end.

(** [s || t] on string fields; [None] is an absent (or null) field. *)
Definition str_or (s : option text) (t : text) : text :=
  match s with
  | Some x => if truthy_text x then x else t
  | None => t
  end.

(** [s || t] where [t] may be absent too. *)
Definition str_or_else (s t : option text) : option text :=
  match s with
  | Some x => if truthy_text x then s else t
  | None => t
  end.

(** [a ?? b] on values whose right operand has no effect. *)
Definition coalesce (a b : jsval) : jsval :=
  if nullish a then b else a.

(** [a > b] on numbers. *)
Definition gt (a b : Q) : bool := negb (Qle_bool a b).

(** [Math.floor]. *)
Definition Math_floor (q : Q) : Q := inject_Z (Qfloor q).

(** [arr.slice(start)] : a negative [start] counts from the end. *)
Definition slice {A : Type} (start : Z) (arr : list A) : list A :=
  let len := Z.of_nat (List.length arr) in
  let k := if start <? 0 then Z.max (len + start) 0 else Z.min start len in
  skipn (Z.to_nat k) arr.

(** [arr.reverse()]. *)
Definition reverse {A : Type} (arr : list A) : list A := rev arr.

(** [arr[i]] : [undefined] out of range. *)
Definition index {A : Type} (arr : list A) (i : Q) : option A :=
  if (Qle_bool 0 i && Qeq_bool i (inject_Z (Qfloor i)))%bool
  then nth_error arr (Z.to_nat (Qfloor i))
  else None.

End JS.

(* ================================================================== *)
(** ** The environment: clock, locale and random source *)

Module Env.

(** [draws n] is the value of the [n]-th call of [Math.random]; [cursor]
    counts the calls made so far; [clock] is the instant returned by
    [new Date()] while the current callback runs. *)
Record World : Type := {
  clock : Z;
  draws : nat -> Q;
  cursor : nat
}.

(** [Math.random] returns a number in the half-open unit interval. *)
Definition unit_draws (w : World) : Prop :=
  forall n, (0 <= draws w n)%Q /\ (draws w n < 1)%Q.

Definition M (A : Type) : Type := World -> A * World.

Definition ret {A : Type} (a : A) : M A := fun w => (a, w).

Definition bind {A B : Type} (c : M A) (k : A -> M B) : M B :=
  fun w => let (a, w') := c w in k a w'.

Definition Math_random : M Q :=
  fun w => (draws w (cursor w),
            {| clock := clock w; draws := draws w;
               cursor := S (cursor w) |}).

(** [new Date()] / [Date.now()] in milliseconds. *)
Definition Date_now : M Z := fun w => (clock w, w).

(** [setMinutes(getMinutes() - i)] and [setDate(getDate() + i)] move an
    instant by whole minutes and whole days (daylight-saving shifts are
    left out). *)
Definition minute : Z := 60000.
Definition day : Z := 86400000.

(** [a ?? b] when evaluating [b] has effects: [b] runs only if needed. *)
Definition coalesceM (a : JS.jsval) (b : M JS.jsval) : M JS.jsval :=
  if JS.nullish a then b else ret a.

(** [arr.map(f)] when [f] has effects: left to right. *)
Fixpoint mapM {A B : Type} (f : A -> M B) (l : list A) : M (list B) :=
  match l with
  | [] => ret []
  | x :: xs => bind (f x) (fun y => bind (mapM f xs) (fun ys => ret (y :: ys)))
  end.

End Env.

Declare Scope js_scope.
Delimit Scope js_scope with js.
Notation "x <- c ;; k" := (Env.bind c (fun x => k))
  (at level 61, c at next level, right associativity) : js_scope.

(** The settled state of a promise. *)
Inductive Exn : Type :=
| AxiosError (message : string)
| TypeError (message : string).

Inductive Outcome (A : Type) : Type :=
| Resolved (a : A)
| Rejected (e : Exn).
Arguments Resolved {A} a.
Arguments Rejected {A} e.

(* ================================================================== *)
(** ** The JSON payloads exchanged with the server *)

Module Payload.
Import JS.

Record Scores : Type := {
  sc_positive : jsval;
  sc_negative : jsval;
  sc_neutral : jsval
}.

(** One element of the real-time array. *)
Record Item : Type := {
  it_timestamp : option text;
  it_positive : jsval;
  it_pos : jsval;
  it_negative : jsval;
  it_neg : jsval;
  it_neutral : jsval;
  it_neu : jsval;
  it_scores : option Scores;
  it_sentiment : option string;
  it_confidence : jsval;
  it_source : option string
}.

(** The [data] property of a real-time response object. *)
Inductive RtData : Type :=
| RtDataArray (items : list (option Item))   (* [None] : a null element *)
| RtDataFalsy                                (* absent, null, 0, '' *)
| RtDataOther.                               (* truthy, not an array *)

Inductive RtBody : Type :=
| RtObject (data : RtData)
| RtArray (items : list (option Item))
| RtOther.                                   (* null or a primitive *)

(** One element of a predictions array. *)
Record PredItem : Type := {
  pd_date : option text;
  pd_day : option text;
  pd_predicted : jsval;
  pd_value : jsval;
  pd_confidence : jsval;
  pd_lower : jsval;
  pd_lower_bound : jsval;
  pd_upper : jsval;
  pd_upper_bound : jsval;
  pd_positive_score : jsval;
  pd_negative_score : jsval;
  pd_neutral_score : jsval
}.

Inductive PredBody : Type :=
| PredObject (success : bool) (predictions : option (list (option PredItem)))
| PredArray (items : list (option PredItem))
| PredOther.

(** One element of a historical array. *)
Record HistItem : Type := {
  hi_date : option text;
  hi_positive : jsval;
  hi_negative : jsval;
  hi_neutral : jsval;
  hi_total : jsval
}.

Inductive HistBody : Type :=
| HistObject (success : bool) (data : option (list HistItem))
| HistArray (items : list HistItem)
| HistOther.

(** A string that may print an instant in ISO form. *)
Inductive isoText : Type :=
| IsoLiteral (s : string)
| IsoString (t : Z).    (* [new Date(t).toISOString()] *)

(** The body of a sync response: [{ synced, timestamp, note }]. *)
Record SyncBody : Type := {
  sb_synced : jsval;
  sb_timestamp : option isoText;
  sb_note : option string
}.

End Payload.

(* ================================================================== *)
(** ** [api.js] : the HTTP client without local recovery *)

Module RootApi.
Import JS Env Payload.

(** [a = d] in a parameter list. *)
Definition default {A : Type} (d : A) (a : option A) : A :=
  match a with Some x => x | None => d end.

(** Every function awaits [api.get] and returns the body; the response
    interceptor re-rejects the error ([Promise.reject(error)]), and
    nothing catches it.  The argument [http] is the settled outcome of
    the request, after the interceptors. *)
Definition getHistoricalApi (days : option Z) (source : option string)
    (http : Outcome HistBody) : M (Outcome HistBody) :=
  match http with
  | Resolved data => ret (Resolved data)
  | Rejected error => ret (Rejected error)
  end.

Definition getPredictionsApi (days : option Z)
    (http : Outcome PredBody) : M (Outcome PredBody) :=
  match http with
  | Resolved data => ret (Resolved data)
  | Rejected error => ret (Rejected error)
  end.

Definition getRealtimeApi (source : option string) (limit : option Z)
    (http : Outcome RtBody) : M (Outcome RtBody) :=
  match http with
  | Resolved data => ret (Resolved data)
  | Rejected error => ret (Rejected error)
  end.

(** [syncTwitter] : the body of the POST, or its failure. *)
Definition syncTwitter (keywords : option (list string))
    (http : Outcome SyncBody) : M (Outcome SyncBody) :=
  let keywords := default [] keywords in
  match http with
  | Resolved data => ret (Resolved data)
  | Rejected error => ret (Rejected error)
  end.

End RootApi.

(* ================================================================== *)
(** ** The HTTP client with local recovery and its mock generators *)

Module Api.
Import JS Env Payload.
Local Open Scope js_scope.

(* The response interceptor logs the error and re-rejects it; logging
   ([console.error]) has no effect on the values and is left out. *)

Definition default {A : Type} (d : A) (a : option A) : A :=
  match a with Some x => x | None => d end.

(** [Math.floor(Math.random() * n) + k]. *)
Definition random_int (n k : Q) : M jsval :=
  r <- Math_random ;;
  ret (Num (Math_floor (r * n) + k)).

(** [Math.random() * n + k]. *)
Definition random_real (n k : Q) : M jsval :=
  r <- Math_random ;;
  ret (Num (r * n + k)).

(** The body of the loop of [generateMockHistoricalData] for one [i]. *)
Definition hist_point (baseDate : Z) (i : Z) : M HistItem :=
  let date := DateString (baseDate - i * day) in
  positive <- random_int 30 60 ;;
  negative <- random_int 15 5 ;;
  neutral <- random_int 15 5 ;;
  total <- random_int 1000 1000 ;;
  ret {| hi_date := Some date; hi_positive := positive;
         hi_negative := negative; hi_neutral := neutral;
         hi_total := total |}.

(** [for (let i = days; i > 0; i--)] : [i] runs from [days] down to 1. *)
Fixpoint hist_loop (baseDate : Z) (i : nat) : M (list HistItem) :=
  match i with
  | O => ret []
  | S i' =>
      b <- hist_point baseDate (Z.of_nat i) ;;
      data <- hist_loop baseDate i' ;;
      ret (b :: data)
  end.

Definition generateMockHistoricalData (days : option Z) : M (list HistItem) :=
  let days := default 7 days in
  baseDate <- Date_now ;;
  hist_loop baseDate (Z.to_nat days).

(** The body of the loop of [generateMockPredictions] for one [i]. *)
Definition pred_point (baseDate : Z) (i : Z) : M PredItem :=
  let date := DateString (baseDate + i * day) in
  predicted <- random_int 20 70 ;;
  confidence <- random_int 20 70 ;;
  lower <- random_int 10 65 ;;
  upper <- random_int 10 80 ;;
  positive_score <- random_int 20 70 ;;
  negative_score <- random_int 15 5 ;;
  neutral_score <- random_int 15 5 ;;
  ret {| pd_date := Some date; pd_day := None;
         pd_predicted := predicted; pd_value := Undefined;
         pd_confidence := confidence;
         pd_lower := lower; pd_lower_bound := Undefined;
         pd_upper := upper; pd_upper_bound := Undefined;
         pd_positive_score := positive_score;
         pd_negative_score := negative_score;
         pd_neutral_score := neutral_score |}.

(** [for (let i = 1; i <= days; i++)] : [n] iterations remain. *)
Fixpoint pred_loop (baseDate : Z) (i : Z) (n : nat) : M (list PredItem) :=
  match n with
  | O => ret []
  | S n' =>
      p <- pred_point baseDate i ;;
      predictions <- pred_loop baseDate (i + 1) n' ;;
      ret (p :: predictions)
  end.

Definition generateMockPredictions (days : option Z) : M (list PredItem) :=
  let days := default 5 days in
  baseDate <- Date_now ;;
  pred_loop baseDate 1 (Z.to_nat days).

Definition sources : list string :=
  ["twitter"; "facebook"; "reviews"; "surveys"]%string.

(** [Math.random() > 0.3 ? 'positive'
     : Math.random() > 0.5 ? 'negative' : 'neutral']. *)
Definition random_sentiment : M string :=
  r1 <- Math_random ;;
  if gt r1 (3 # 10) then ret "positive"%string
  else
    r2 <- Math_random ;;
    if gt r2 (5 # 10) then ret "negative"%string
    else ret "neutral"%string.

(** The body of the loop of [generateMockRealtimeData] for one [i]. *)
Definition rt_point (now : Z) (i : Z) : M Item :=
  let timestamp := TimeString (now - i * minute) in
  positive <- random_real 40 50 ;;
  negative <- random_real 20 5 ;;
  neutral <- random_real 20 5 ;;
  sentiment <- random_sentiment ;;
  confidence <- random_real (3 # 10) (7 # 10) ;;
  r <- Math_random ;;
  ret {| it_timestamp := Some timestamp;
         it_positive := positive; it_pos := Undefined;
         it_negative := negative; it_neg := Undefined;
         it_neutral := neutral; it_neu := Undefined;
         it_scores := None;
         it_sentiment := Some sentiment;
         it_confidence := confidence;
         it_source := index sources (Math_floor (r * 4)) |}.

(** [for (let i = limit; i > 0; i--)]. *)
Fixpoint rt_loop (now : Z) (i : nat) : M (list Item) :=
  match i with
  | O => ret []
  | S i' =>
      p <- rt_point now (Z.of_nat i) ;;
      data <- rt_loop now i' ;;
      ret (p :: data)
  end.

Definition generateMockRealtimeData (limit : option Z) : M (list Item) :=
  let limit := default 20 limit in
  now <- Date_now ;;
  rt_loop now (Z.to_nat limit).

(** [try { const { data } = await api.get(...); return data }
     catch (error) { console.error(...); return {...} }] *)
Definition getHistoricalApi (days : option Z) (source : option string)
    (http : Outcome HistBody) : M (Outcome HistBody) :=
  let days := default 7 days in
  match http with
  | Resolved data => ret (Resolved data)
  | Rejected error =>
      mock <- generateMockHistoricalData (Some days) ;;
      ret (Resolved (HistObject false (Some mock)))
  end.

Definition getPredictionsApi (days : option Z)
    (http : Outcome PredBody) : M (Outcome PredBody) :=
  let days := default 5 days in
  match http with
  | Resolved data => ret (Resolved data)
  | Rejected error =>
      mock <- generateMockPredictions (Some days) ;;
      ret (Resolved (PredObject false (Some (map Some mock))))
  end.

Definition getRealtimeApi (source : option string) (limit : option Z)
    (http : Outcome RtBody) : M (Outcome RtBody) :=
  let limit := default 50 limit in
  match http with
  | Resolved data => ret (Resolved data)
  | Rejected error =>
      mock <- generateMockRealtimeData (Some limit) ;;
      ret (Resolved (RtObject (RtDataArray (map Some mock))))
  end.

(** [syncTwitter] : on a failed POST, a mock success response. *)
Definition syncTwitter (keywords : option (list string))
    (http : Outcome SyncBody) : M (Outcome SyncBody) :=
  let keywords := default [] keywords in
  match http with
  | Resolved data => ret (Resolved data)
  | Rejected error =>
      now <- Date_now ;;
      ret (Resolved {| sb_synced := Num 0;
                       sb_timestamp := Some (IsoString now);
                       sb_note := Some "Using mock data - backend not available"%string |})
  end.

End Api.

(* ================================================================== *)
(** ** What the two dashboard components share *)

Module View.
Import JS Env Payload.
Local Open Scope js_scope.

(** An entry of the [realTimeData] state. *)
Record FeedEntry : Type := {
  fe_timestamp : text;
  fe_positive : jsval;
  fe_negative : jsval;
  fe_neutral : jsval
}.

(** A point of the [predictiveData] state. *)
Record ChartPoint : Type := {
  cp_date : option text;
  cp_predicted : jsval;
  cp_upper : jsval;
  cp_lower : jsval;
  cp_confidence : jsval
}.

(** [arr.map(f)] over an array that may hold [null]: reading a property
    of [null] throws, and what ran before the throw stays done. *)
Fixpoint mapItems {A B : Type} (f : A -> M B) (arr : list (option A))
    : M (Outcome (list B)) :=
  match arr with
  | [] => ret (Resolved [])
  | None :: _ =>
      ret (Rejected (TypeError "Cannot read properties of null"))
  | Some x :: rest =>
      y <- f x ;;
      r <- mapItems f rest ;;
      match r with
      | Resolved ys => ret (Resolved (y :: ys))
      | Rejected e => ret (Rejected e)
      end
  end.

(** [realTimeData.slice(-6).reverse()] : what the feed renders. *)
Definition renderedFeed (realTimeData : list FeedEntry) : list FeedEntry :=
  reverse (slice (-6) realTimeData).

Definition staticPoint (date : string) (predicted confidence lower upper : Z)
    : ChartPoint :=
  {| cp_date := Some (Literal date);
     cp_predicted := Num (inject_Z predicted);
     cp_upper := Num (inject_Z upper);
     cp_lower := Num (inject_Z lower);
     cp_confidence := Num (inject_Z confidence) |}.

(** [getMockPredictiveData()] / [defaultPredictions]. *)
Definition getMockPredictiveData : list ChartPoint :=
  [ staticPoint "10/25" 80 85 75 85;
    staticPoint "10/26" 82 82 77 87;
    staticPoint "10/27" 79 78 73 85;
    staticPoint "10/28" 85 75 78 92;
    staticPoint "10/29" 83 72 75 91 ].

(** The three pieces of state of the historical chart. *)
Record HistoricalState : Type := {
  historicalData : list HistItem;
  historicalLoading : bool;
  historicalError : string
}.

(** The state the sync button reads and writes. *)
Record SyncState : Type := {
  syncing : bool;
  reloadKey : Z
}.

End View.

(* ================================================================== *)
(** ** The dashboard with the nested-scores lookup *)

Module Dashboard.
Import JS Env Payload View.
Local Open Scope js_scope.

(** [Array.from({ length: 6 }, (_, i) => ({...}))]. *)
Definition mockEntry (i : Z) : M FeedEntry :=
  now <- Date_now ;;
  let timestamp := TimeString (now - i * 60000) in
  r1 <- Math_random ;;
  r2 <- Math_random ;;
  r3 <- Math_random ;;
  ret {| fe_timestamp := timestamp;
         fe_positive := Num (r1 * 40 + 50);
         fe_negative := Num (r2 * 20 + 5);
         fe_neutral := Num (r3 * 20 + 5) |}.

Definition generateMockRealtimeData : M (list FeedEntry) :=
  mapM mockEntry (map Z.of_nat (seq 0 6)).

(** [item.scores?.positive] and its two siblings. *)
Definition nested (scores : option Scores) (field : Scores -> jsval) : jsval :=
  match scores with
  | Some s => field s
  | None => Undefined
  end.

(** [full ?? abbr ?? (scores?.field ?? Math.random() * 100)]. *)
Definition resolve (full abbr : jsval) (scores : option Scores)
    (field : Scores -> jsval) : M jsval :=
  coalesceM (coalesce full abbr)
    (coalesceM (nested scores field)
       (r <- Math_random ;; ret (Num (r * 100)))).

(** The arrow function passed to [map] in both array branches. *)
Definition processItem (item : Item) : M FeedEntry :=
  now <- Date_now ;;
  let nowString := TimeString now in
  positive <- resolve (it_positive item) (it_pos item) (it_scores item) sc_positive ;;
  negative <- resolve (it_negative item) (it_neg item) (it_scores item) sc_negative ;;
  neutral <- resolve (it_neutral item) (it_neu item) (it_scores item) sc_neutral ;;
  ret {| fe_timestamp := str_or (it_timestamp item) nowString;
         fe_positive := positive;
         fe_negative := negative;
         fe_neutral := neutral |}.

(** The [try] block up to [processedData]. *)
Definition processResponse (response : RtBody) : M (Outcome (list FeedEntry)) :=
  match response with
  | RtObject (RtDataArray data) => mapItems processItem (slice (-20) data)
  | RtArray items => mapItems processItem (slice (-20) items)
  | _ => mock <- generateMockRealtimeData ;; ret (Resolved mock)
  end.

(** One run of [fetchRealtime]: [result] is the settled promise of
    [getRealtimeApi(selectedSource, 20)], [realTimeData] the state before
    the run; the value is the state after it. *)
Definition fetchRealtime (result : Outcome RtBody) (cancelled : bool)
    (realTimeData : list FeedEntry) : M (list FeedEntry) :=
  tried <- match result with
           | Resolved response => processResponse response
           | Rejected error => ret (Rejected error)
           end ;;
  match tried with
  | Resolved processedData =>
      if negb cancelled then ret processedData else ret realTimeData
  | Rejected error =>
      if negb cancelled then generateMockRealtimeData else ret realTimeData
  end.

(** The arrow function passed to [map] in [loadPredictions]. *)
Definition mapPrediction (d : PredItem) : M ChartPoint :=
  ret {| cp_date := Some (str_or (pd_date d) (Literal ""));
         cp_predicted :=
           or_else (or_else (pd_predicted d) (pd_positive_score d)) (Num 0);
         cp_upper :=
           or_else (or_else (pd_upper d) (pd_upper_bound d))
                   (add (or_else (pd_predicted d) (Num 0)) 3);
         cp_lower :=
           or_else (or_else (pd_lower d) (pd_lower_bound d))
                   (sub (or_else (pd_predicted d) (Num 0)) 3);
         cp_confidence := or_else (pd_confidence d) (Num 0) |}.

(** One run of [loadPredictions]: the new [predictiveData]. *)
Definition loadPredictions (result : Outcome PredBody) : M (list ChartPoint) :=
  tried <- match result with
           | Resolved (PredObject true predictions) =>
               mapItems mapPrediction
                 (match predictions with Some l => l | None => [] end)
           | Resolved (PredArray items) => mapItems mapPrediction items
           | Resolved _ => ret (Resolved getMockPredictiveData)
           | Rejected error => ret (Rejected error)
           end ;;
  match tried with
  | Resolved points => ret points
  | Rejected error => ret getMockPredictiveData
  end.

Definition staticBucket (date : string) (positive negative neutral total : Z)
    : HistItem :=
  {| hi_date := Some (Literal date);
     hi_positive := Num (inject_Z positive);
     hi_negative := Num (inject_Z negative);
     hi_neutral := Num (inject_Z neutral);
     hi_total := Num (inject_Z total) |}.

(** [getMockHistoricalData()]. *)
Definition getMockHistoricalData : list HistItem :=
  [ staticBucket "10/18" 65 20 15 1250;
    staticBucket "10/19" 70 18 12 1450;
    staticBucket "10/20" 62 25 13 1380;
    staticBucket "10/21" 75 15 10 1620;
    staticBucket "10/22" 68 22 10 1540;
    staticBucket "10/23" 72 18 10 1680;
    staticBucket "10/24" 78 12 10 1820 ].

(** [const daysMap = { '24h': 1, '7d': 7, '30d': 30, '90d': 90 }]. *)
Definition daysMap : list (string * Z) :=
  [ ("24h", 1); ("7d", 7); ("30d", 30); ("90d", 90) ]%string.

(** The properties an object literal inherits from [Object.prototype]:
    eleven functions and the accessor [__proto__], which gives the
    prototype object itself. *)
Definition Object_prototype : list string :=
  [ "constructor"; "hasOwnProperty"; "isPrototypeOf";
    "propertyIsEnumerable"; "toLocaleString"; "toString"; "valueOf";
    "__proto__"; "__defineGetter__"; "__defineSetter__";
    "__lookupGetter__"; "__lookupSetter__" ]%string.

Definition inherited (key : string) : bool :=
  existsb (String.eqb key) Object_prototype.

(** What [obj[key]] gives on an object literal whose own properties hold
    numbers: the own number, an inherited function or object, or
    [undefined]. *)
Inductive Property : Type :=
| Own (d : Z)
| Inherited
| Absent.

(** [obj[key]]: the own properties first, then the prototype. *)
Fixpoint lookup (key : string) (obj : list (string * Z)) : Property :=
  match obj with
  | [] => if inherited key then Inherited else Absent
  | (k, v) :: rest => if String.eqb key k then Own v else lookup key rest
  end.

(** The value of [days]: a number, or a function or object that is not
    one. *)
Inductive Days : Type :=
| Count (d : Z)
| NotNumber.

(** [daysMap[selectedTimeRange] || 7]: a function or an object is truthy
    and stays. *)
Definition daysFor (selectedTimeRange : string) : Days :=
  match lookup selectedTimeRange daysMap with
  | Own d => if d =? 0 then Count 7 else Count d
  | Inherited => NotNumber
  | Absent => Count 7
  end.

(** [days] as the clients read it.  They send it with the request, and
    the one that recovers counts [for (let i = days; i > 0; i--)]: a
    function or an object converts to [NaN] there, [i > 0] is false at
    once and the body never runs, as for 0. *)
Definition loopCount (days : Days) : Z :=
  match days with
  | Count d => d
  | NotNumber => 0
  end.

Definition HistClient : Type :=
  option Z -> option string -> Outcome HistBody -> M (Outcome HistBody).

(** One run of [loadHistorical] with the imported [getHistoricalApi]:
    the state of the historical chart after it.  [setHistoricalError('')]
    comes first, the [finally] block clears the loading flag. *)
Definition loadHistorical (getHistoricalApi : HistClient)
    (selectedTimeRange selectedSource : string) (http : Outcome HistBody)
    : M HistoricalState :=
  let days := daysFor selectedTimeRange in
  response <- getHistoricalApi (Some (loopCount days)) (Some selectedSource) http ;;
  match response with
  | Resolved (HistObject true data) =>
      ret {| historicalData := match data with Some l => l | None => [] end;
             historicalLoading := false;
             historicalError := "" |}
  | Resolved (HistArray items) =>
      ret {| historicalData := items;
             historicalLoading := false;
             historicalError := "" |}
  | Resolved _ =>
      ret {| historicalData := getMockHistoricalData;
             historicalLoading := false;
             historicalError := "" |}
  | Rejected error =>
      ret {| historicalData := getMockHistoricalData;
             historicalLoading := false;
             historicalError := "Failed to load historical data" |}
  end.

Definition SyncClient : Type :=
  option (list string) -> Outcome SyncBody -> M (Outcome SyncBody).

(** The [onClick] handler of the sync button with the imported
    [syncTwitter]: [try { setSyncing(true); await syncTwitter([]);
    setReloadKey(prev => prev + 1) } catch (error) { console.error(...) }
    finally { setSyncing(false) }]. *)
Definition handleSync (syncTwitter : SyncClient) (http : Outcome SyncBody)
    (st : SyncState) : M SyncState :=
  result <- syncTwitter (Some []) http ;;
  match result with
  | Resolved _ =>
      ret {| syncing := false; reloadKey := reloadKey st + 1 |}
  | Rejected error =>
      ret {| syncing := false; reloadKey := reloadKey st |}
  end.

End Dashboard.

(* ================================================================== *)
(** ** The dashboard that simulates one record locally *)

Module LegacyDashboard.
Import JS Env Payload View.
Local Open Scope js_scope.

(** [full ?? abbr ?? Math.random() * 100]. *)
Definition resolve (full abbr : jsval) : M jsval :=
  coalesceM (coalesce full abbr)
    (r <- Math_random ;; ret (Num (r * 100))).

Definition processItem (item : Item) : M FeedEntry :=
  now <- Date_now ;;
  let nowString := TimeString now in
  positive <- resolve (it_positive item) (it_pos item) ;;
  negative <- resolve (it_negative item) (it_neg item) ;;
  neutral <- resolve (it_neutral item) (it_neu item) ;;
  ret {| fe_timestamp := str_or (it_timestamp item) nowString;
         fe_positive := positive;
         fe_negative := negative;
         fe_neutral := neutral |}.

(** [const arr = rt?.data || []; arr.slice(-20).map(...)]. *)
Definition processResponse (rt : RtBody) : M (Outcome (list FeedEntry)) :=
  match rt with
  | RtObject (RtDataArray arr) => mapItems processItem (slice (-20) arr)
  | RtObject RtDataOther =>
      ret (Rejected (TypeError "arr.slice(...).map is not a function"))
  | _ => mapItems processItem (slice (-20) [])
  end.

(** The object built in the [catch] block. *)
Definition newSentiment : M FeedEntry :=
  now <- Date_now ;;
  let timestamp := TimeString now in
  r1 <- Math_random ;;
  r2 <- Math_random ;;
  r3 <- Math_random ;;
  ret {| fe_timestamp := timestamp;
         fe_positive := Num (r1 * 100);
         fe_negative := Num (r2 * 100);
         fe_neutral := Num (r3 * 100) |}.

Definition fetchRealtime (result : Outcome RtBody) (cancelled : bool)
    (realTimeData : list FeedEntry) : M (list FeedEntry) :=
  tried <- match result with
           | Resolved rt => processResponse rt
           | Rejected e => ret (Rejected e)
           end ;;
  match tried with
  | Resolved mapped =>
      if negb cancelled then ret mapped else ret realTimeData
  | Rejected e =>
      s <- newSentiment ;;
      if negb cancelled
      then ret (slice (-19) realTimeData ++ [s])
      else ret realTimeData
  end.

(** The arrow function of the [Array.isArray(data)] branch. *)
Definition mapPrediction (d : PredItem) : M ChartPoint :=
  ret {| cp_date := Some (str_or (str_or_else (pd_date d) (pd_day d))
                                 (Literal ""));
         cp_predicted :=
           or_else (or_else (pd_predicted d) (pd_value d)) (Num 0);
         cp_upper :=
           or_else (or_else (pd_upper d) (pd_upper_bound d))
                   (add (pd_predicted d) 3);
         cp_lower :=
           or_else (or_else (pd_lower d) (pd_lower_bound d))
                   (sub (pd_predicted d) 3);
         cp_confidence := Undefined |}.

(** The arrow function of the [data.predictions] branch. *)
Definition copyPrediction (d : PredItem) : M ChartPoint :=
  ret {| cp_date := pd_date d;
         cp_predicted := pd_predicted d;
         cp_upper := pd_upper d;
         cp_lower := pd_lower d;
         cp_confidence := Undefined |}.

Definition loadPredictions (result : Outcome PredBody) : M (list ChartPoint) :=
  tried <- match result with
           | Resolved (PredArray data) => mapItems mapPrediction data
           | Resolved (PredObject _ (Some predictions)) =>
               mapItems copyPrediction predictions
           | Resolved _ => ret (Resolved getMockPredictiveData)
           | Rejected e => ret (Rejected e)
           end ;;
  match tried with
  | Resolved points => ret points
  | Rejected e => ret getMockPredictiveData
  end.

End LegacyDashboard.

(* ================================================================== *)
(** ** Polling: the life of the [realTimeData] state *)

Module Polling.
Import JS Env Payload View.
Local Open Scope js_scope.

(** One completion of [fetchRealtime] (the first call or a
    [setInterval] firing): the instant it runs at, the settled promise
    of [getRealtimeApi], and the [cancelled] flag it then reads. *)
Record Tick : Type := {
  tk_clock : Z;
  tk_result : Outcome RtBody;
  tk_cancelled : bool
}.

Definition setClock (t : Z) : M unit :=
  fun w => (tt, {| clock := t; draws := draws w; cursor := cursor w |}).

Definition Fetch : Type :=
  Outcome RtBody -> bool -> list FeedEntry -> M (list FeedEntry).

(** The state after a sequence of completions. *)
Fixpoint run (fetchRealtime : Fetch) (ticks : list Tick)
    (realTimeData : list FeedEntry) : M (list FeedEntry) :=
  match ticks with
  | [] => ret realTimeData
  | t :: rest =>
      _ <- setClock (tk_clock t) ;;
      next <- fetchRealtime (tk_result t) (tk_cancelled t) realTimeData ;;
      run fetchRealtime rest next
  end.

(** [useState([])]. *)
Definition initialRealTimeData : list FeedEntry := [].

End Polling.

(* ================================================================== *)
(** ** The components wired to a client *)

Module Wiring.
Import JS Env Payload View.
Local Open Scope js_scope.

Definition RtClient : Type :=
  option string -> option Z -> Outcome RtBody -> M (Outcome RtBody).

Definition PredClient : Type :=
  option Z -> Outcome PredBody -> M (Outcome PredBody).

(** [fetchRealtime] from its first line on:
    [await getRealtimeApi(selectedSource, 20)] with the imported client,
    then the rest of the function. *)
Definition fetchRealtime (getRealtimeApi : RtClient) (rest : Polling.Fetch)
    (selectedSource : string) (http : Outcome RtBody) (cancelled : bool)
    (realTimeData : list FeedEntry) : M (list FeedEntry) :=
  result <- getRealtimeApi (Some selectedSource) (Some 20) http ;;
  rest result cancelled realTimeData.

(** [loadPredictions] from its first line on:
    [await getPredictionsApi(5)] with the imported client, then the rest. *)
Definition loadPredictions (getPredictionsApi : PredClient)
    (rest : Outcome PredBody -> M (list ChartPoint))
    (http : Outcome PredBody) : M (list ChartPoint) :=
  result <- getPredictionsApi (Some 5) http ;;
  rest result.

End Wiring.

(* ================================================================== *)
(** ** The server-side policies *)

Module Backend.
Import Env.

(** Modelled from the spec: the [source] enumeration of a
    [SentimentRecord] (section 3; the backend is not among the sources). *)
Inductive Source : Type := twitter | facebook | reviews | surveys.

Definition Source_eqb (a b : Source) : bool :=
  match a, b with
  | twitter, twitter | facebook, facebook
  | reviews, reviews | surveys, surveys => true
  | _, _ => false
  end.

(** Modelled from the spec: the [source_filter] of [historical], a source
    or "all" (section 4.5). *)
Inductive SourceFilter : Type := all | only (s : Source).

(** Modelled from the spec: [SentimentScore] (section 3). *)
Record SentimentScore : Type := {
  positive : Q;
  negative : Q;
  neutral : Q
}.

(** Modelled from the spec: [SentimentRecord] (section 3), without the
    fields no policy reads; [created_at] is kept as the calendar day the
    record falls in. *)
Record SentimentRecord : Type := {
  source : Source;
  score : SentimentScore;
  confidence : Q;
  created_at : Z
}.

(** Modelled from the spec: [Bucket] (section 3); [period_start] is a
    calendar day. *)
Record Bucket : Type := {
  period_start : Z;
  positive_pct : Q;
  negative_pct : Q;
  neutral_pct : Q;
  total_count : Z
}.

Definition percentages (b : Bucket) : Q * Q * Q :=
  (positive_pct b, negative_pct b, neutral_pct b).

Section Aggregator.

(** The spec leaves the weights of the weighted mean open. *)
Variable weight : SentimentRecord -> Q.

(** Modelled from the spec: a record matches the filter and falls in the
    bucket of day [d] (section 4.5). *)
Definition matches (f : SourceFilter) (d : Z) (r : SentimentRecord) : bool :=
  (created_at r =? d)
  && match f with all => true | only s => Source_eqb (source r) s end.

(** Modelled from the spec: the weighted mean of a score component across
    the matched records (section 4.5). *)
Definition weighted_sum (g : SentimentRecord -> Q)
    (rs : list SentimentRecord) : Q :=
  fold_right (fun r acc => (weight r * g r + acc)%Q) 0%Q rs.

Definition weighted_mean (g : SentimentScore -> Q)
    (rs : list SentimentRecord) : Q :=
  (weighted_sum (fun r => g (score r)) rs / weighted_sum (fun _ => 1%Q) rs)%Q.

(** Modelled from the spec: one bucket of the Historical Aggregator
    (section 4.5), whose implementation is in the Flask backend and not
    among the sources.  [held] is the triple of the previous non-empty
    bucket; a bucket without matching records repeats it. *)
Definition bucket_of (store : list SentimentRecord) (f : SourceFilter)
    (d : Z) (held : Q * Q * Q) : Bucket :=
  let matched := filter (matches f d) store in
  let '(p, n, u) :=
    match matched with
    | [] => held
    | _ :: _ => (weighted_mean positive matched,
                 weighted_mean negative matched,
                 weighted_mean neutral matched)
    end in
  {| period_start := d;
     positive_pct := p; negative_pct := n; neutral_pct := u;
     total_count := Z.of_nat (List.length matched) |}.

(** Modelled from the spec: the buckets of [n] consecutive days from
    day [d] on, oldest first (section 4.5; the backend is not among
    the sources). *)
Fixpoint buckets_from (store : list SentimentRecord) (f : SourceFilter)
    (d : Z) (n : nat) (held : Q * Q * Q) : list Bucket :=
  match n with
  | O => []
  | S n' =>
      let b := bucket_of store f d held in
      b :: buckets_from store f (d + 1) n' (percentages b)
  end.

(** Modelled from the spec: [historical(days, source_filter)] of the
    Historical Aggregator (section 4.5; the backend is not among the
    sources): the [days] trailing calendar days, today included.  What
    a leading empty bucket holds is not specified: it is [initial]. *)
Definition historical (store : list SentimentRecord) (today : Z)
    (initial : Q * Q * Q) (days : Z) (source_filter : SourceFilter)
    : list Bucket :=
  buckets_from store source_filter (today - days + 1) (Z.to_nat days) initial.

End Aggregator.

(** Modelled from the spec: the [model_source] tag (section 3). *)
Inductive ModelSource : Type := live | stored | synthetic.

(** Modelled from the spec: [PredictionPoint] (section 3); [date] is a
    calendar day. *)
Record PredictionPoint : Type := {
  date : Z;
  predicted : Q;
  lower : Q;
  upper : Q;
  pp_confidence : Q;
  model_source : ModelSource
}.

(** Modelled from the spec: what a forecasting capability yields for one
    future day, a point estimate and an uncertainty band (section 4.6). *)
Record Estimate : Type := {
  point : Q;
  band_lower : Q;
  band_upper : Q
}.

(** Modelled from the spec: the part of the record store the forecast
    reads (section 6); stored batches are kept most recent first. *)
Record RecordStore : Type := {
  history_span_days : Z;
  positive_series : list Q;
  prediction_batches : list (list PredictionPoint)
}.

(** Modelled from the spec: [MIN_HISTORY_DAYS] (section 4.6). *)
Definition MIN_HISTORY_DAYS : Z := 45.

(** Modelled from the spec: a point "tagged [model_source = m]". *)
Definition tag (m : ModelSource) (p : PredictionPoint) : PredictionPoint :=
  {| date := date p; predicted := predicted p;
     lower := lower p; upper := upper p;
     pp_confidence := pp_confidence p; model_source := m |}.

(** Modelled from the spec: [clamp(x, lo, hi)] (section 4.6). *)
Definition clamp (x lo hi : Q) : Q := Qmax lo (Qmin x hi).

(** Modelled from the spec: a well-formed [PredictionPoint]: the
    invariant [lower <= predicted <= upper] and the ranges of
    [predicted] and [confidence] (section 3), which section 4.6 asks of
    every returned point. *)
Definition well_formed (p : PredictionPoint) : Prop :=
  (lower p <= predicted p)%Q /\ (predicted p <= upper p)%Q /\
  (0 <= predicted p)%Q /\ (predicted p <= 100)%Q /\
  (0 <= pp_confidence p)%Q /\ (pp_confidence p <= 1)%Q.

(** Modelled from the spec: the figures of the synthetic random walk
    (section 4.6, step 3), which the spec does not give: the upward
    [drift] of a step, the [spread] of its random part, the half-width
    [margin] of the band, and the percentage to start from when the
    store holds no history. *)
Record WalkPolicy : Type := {
  drift : Q;
  spread : Q;
  margin : Q;
  default_seed : Q
}.

(** Modelled from the spec: "the last known historical percentage"
    (section 4.6, step 3); the series is oldest first. *)
Definition last_known (policy : WalkPolicy) (store : RecordStore) : Q :=
  last (positive_series store) (default_seed policy).

(** Modelled from the spec: one step of the random walk (section 4.6,
    step 3): the previous value, plus the drift, plus a deviation drawn
    evenly around zero, kept in the range of [predicted] (section 3). *)
Definition walk_step (policy : WalkPolicy) (prev : Q) : M Q :=
  bind Math_random (fun r =>
  ret (clamp (prev + drift policy + (r - (1 # 2)) * spread policy) 0 100)%Q).

(** Modelled from the spec: [n] steps of the walk that starts at [prev]
    (section 4.6, step 3). *)
Fixpoint random_walk (policy : WalkPolicy) (prev : Q) (n : nat) : M (list Q) :=
  match n with
  | O => ret []
  | S n' =>
      bind (walk_step policy prev) (fun p =>
      bind (random_walk policy p n') (fun rest =>
      ret (p :: rest)))
  end.

(** Modelled from the spec: the synthetic point of the [i]-th day after
    the request (section 4.6, step 3 and the invariant); the confidence
    follows the rule of the live path, the only one the spec gives. *)
Definition synthetic_point (policy : WalkPolicy) (today : Z) (i : nat) (p : Q)
    : PredictionPoint :=
  let lo := (p - margin policy)%Q in
  let hi := (p + margin policy)%Q in
  {| date := today + Z.of_nat i;
     predicted := p;
     lower := lo;
     upper := hi;
     pp_confidence := clamp (1 - (hi - lo) / 100)%Q 0%Q 1%Q;
     model_source := synthetic |}.

Section Forecast.

(** Modelled from the spec: the two forecasting capabilities (section 6);
    [None] is a failed inference. *)
Variable sequence_model : list Q -> Z -> option (list Estimate).
Variable trend_model : list Q -> Z -> option (list Estimate).

(** Modelled from the spec: [latest_prediction_batch] of the record
    store (section 6; the store is not among the sources): the most
    recent batch that covers at least [days] dates. *)
Definition latest_prediction_batch (store : RecordStore) (days : Z)
    : option (list PredictionPoint) :=
  find (fun batch => days <=? Z.of_nat (List.length batch))
       (prediction_batches store).

(** Modelled from the spec: the weighted combination of the live path
    (section 4.6, step 1; the backend is not among the sources). *)
Definition ensemble (today : Z) (i : nat) (s t : Estimate) : PredictionPoint :=
  let lo := Qmin (band_lower s) (band_lower t) in
  let hi := Qmax (band_upper s) (band_upper t) in
  {| date := today + Z.of_nat i;
     predicted := ((6 # 10) * point s + (4 # 10) * point t)%Q;
     lower := lo;
     upper := hi;
     pp_confidence := clamp (1 - (hi - lo) / 100)%Q 0%Q 1%Q;
     model_source := live |}.

(** Modelled from the spec: the live path of the Forecast Ensemble
    Engine (section 4.6, step 1; the backend is not among the
    sources).  [None] : the path cannot run. *)
Definition live_path (store : RecordStore) (today days : Z)
    : option (list PredictionPoint) :=
  if MIN_HISTORY_DAYS <=? history_span_days store then
    match sequence_model (positive_series store) days,
          trend_model (positive_series store) days with
    | Some ss, Some ts =>
        Some (map (fun '(i, (s, t)) => ensemble today i s t)
                  (combine (seq 1 (Z.to_nat days)) (combine ss ts)))
    | _, _ => None
    end
  else None.

(** Modelled from the spec: the synthetic stage (section 4.6, step 3;
    the backend is not among the sources): [days] points of a random
    walk seeded from the last known historical percentage, dated from
    the day after the request and tagged. *)
Definition synthesize (policy : WalkPolicy) (store : RecordStore)
    (today days : Z) : M (list PredictionPoint) :=
  bind (random_walk policy (last_known policy store) (Z.to_nat days))
       (fun walk =>
  ret (map (fun '(i, p) => synthetic_point policy today i p)
           (combine (seq 1 (List.length walk)) walk))).

(** Modelled from the spec: [forecast(days)] of the Forecast Ensemble
    Engine (section 4.6; the backend is not among the sources): the
    live path, else the stored batch verbatim, else synthetic points. *)
Definition forecast (policy : WalkPolicy) (store : RecordStore)
    (today days : Z) : M (list PredictionPoint) :=
  match live_path store today days with
  | Some points => ret points
  | None =>
      match latest_prediction_batch store days with
      | Some batch => ret (map (tag stored) batch)
      | None => synthesize policy store today days
      end
  end.

End Forecast.

End Backend.

(* ================================================================== *)
(** ** The vocabulary of the statements *)

Module Props.
Import JS Env Payload View.
Local Open Scope js_scope.

(** The world after [k] further calls of [Math.random]. *)
Definition tick (k : nat) (w : World) : World :=
  {| clock := clock w; draws := draws w; cursor := k + cursor w |}.

(** [w'] differs from [w] by calls of [Math.random] only. *)
Definition later (w w' : World) : Prop :=
  clock w' = clock w /\ draws w' = draws w.

(** [i; i-1; ...; 1] : the values of a counter that runs down to 1. *)
Fixpoint countdown (i : nat) : list Z :=
  match i with
  | O => []
  | S i' => Z.of_nat i :: countdown i'
  end.

(** [i; i+1; ...] : [n] values of a counter that runs up from [i]. *)
Fixpoint countup (i : Z) (n : nat) : list Z :=
  match n with
  | O => []
  | S n' => i :: countup (i + 1) n'
  end.

(** The strings [stamps] print the instants [ts], in this order. *)
Definition prints (mk : Z -> text) (stamps : list (option text))
    (ts : list Z) : Prop :=
  stamps = map (fun t => Some (mk t)) ts.

(** A sequence of printed instants is ordered by [R]. *)
Definition ordered (R : Z -> Z -> Prop) (mk : Z -> text)
    (stamps : list (option text)) : Prop :=
  exists ts, prints mk stamps ts /\ StronglySorted R ts.

(** The number [q], up to the representation of the fraction. *)
Definition is_num (q : Q) (v : jsval) : Prop :=
  match v with
  | Num x => (x == q)%Q
  | _ => False
  end.

(** A number between two bounds. *)
Definition between (lo hi : Q) (v : jsval) : Prop :=
  match v with
  | Num q => (lo <= q)%Q /\ (q <= hi)%Q
  | _ => False
  end.

(** The invariant the spec gives a sentiment score: each component in
    [0,100] and the three summing to 100 within 0.5. *)
Definition score_invariant (positive negative neutral : jsval) : Prop :=
  match positive, negative, neutral with
  | Num p, Num n, Num u =>
      between 0 100 positive /\ between 0 100 negative /\
      between 0 100 neutral /\
      ((995 # 10) <= p + n + u)%Q /\ (p + n + u <= (1005 # 10))%Q
  | _, _, _ => False
  end.

(** The sum of three numeric components lies between two bounds. *)
Definition sum_between (lo hi : Q) (positive negative neutral : jsval) : Prop :=
  match positive, negative, neutral with
  | Num p, Num n, Num u => (lo <= p + n + u)%Q /\ (p + n + u <= hi)%Q
  | _, _, _ => False
  end.

(** What the mock generators give a score: the ranges of the source's
    comments, hence each component in [0,100], and a sum that ranges
    from 60 to 140. *)
Definition synthetic_score (positive negative neutral : jsval) : Prop :=
  between 50 90 positive /\ between 5 25 negative /\
  between 5 25 neutral /\
  between 0 100 positive /\ between 0 100 negative /\
  between 0 100 neutral /\
  sum_between 60 140 positive negative neutral.

(** A record of the real-time fallback of the HTTP client: iteration
    [i] prints the instant [i] minutes before the call. *)
Definition rt_record (now : Z) (i : Z) (it : Item) : Prop :=
  it_timestamp it = Some (TimeString (now - i * minute)) /\
  synthetic_score (it_positive it) (it_negative it) (it_neutral it).

(** A record of the dashboard's own generator: index [i] prints the
    instant [i] minutes before the call. *)
Definition feed_record (now : Z) (i : Z) (e : FeedEntry) : Prop :=
  fe_timestamp e = TimeString (now - i * 60000) /\
  synthetic_score (fe_positive e) (fe_negative e) (fe_neutral e).

(** A point of the synthetic forecast: iteration [i] prints the day [i]
    days after the call; the ranges are those of the source's comments. *)
Definition pred_record (baseDate : Z) (i : Z) (p : PredItem) : Prop :=
  pd_date p = Some (DateString (baseDate + i * day)) /\
  between 70 89 (pd_predicted p) /\
  between 70 89 (pd_confidence p) /\
  between 65 74 (pd_lower p) /\
  between 80 89 (pd_upper p).

(** A bucket of the synthetic history: iteration [i] prints the day [i]
    days before the call. *)
Definition hist_record (baseDate : Z) (i : Z) (b : HistItem) : Prop :=
  hi_date b = Some (DateString (baseDate - i * day)) /\
  between 60 89 (hi_positive b) /\
  between 5 19 (hi_negative b) /\
  between 5 19 (hi_neutral b) /\
  between 1000 1999 (hi_total b).

(** The band invariant of a prediction: lower <= predicted <= upper. *)
Definition band_ok (lower predicted upper : jsval) : Prop :=
  le lower predicted /\ le predicted upper.

(** The default band of a mapped prediction: the estimate is kept, the
    bounds are three points above and below it, and the band holds. *)
Definition default_band (d : PredItem) (c : ChartPoint) : Prop :=
  cp_predicted c = pd_predicted d /\
  cp_upper c = add (pd_predicted d) 3 /\
  cp_lower c = sub (pd_predicted d) 3 /\
  band_ok (cp_lower c) (cp_predicted c) (cp_upper c).

(** The resolution order in the words of the spec: the sources are tried
    in order, the first one present wins, and only when none is present
    a random placeholder in [0,100) is drawn. *)
Definition first_present (sources : list jsval) : option jsval :=
  find (fun v => negb (nullish v)) sources.

Definition resolve_by_priority (sources : list jsval) : M jsval :=
  match first_present sources with
  | Some v => ret v
  | None => r <- Math_random ;; ret (Num (r * 100))
  end.

(** The mapping of a raw item in the words of the spec: each field by
    the priority list full name, abbreviated key, nested scores object. *)
Definition normalize_by_priority (item : Item) : M FeedEntry :=
  now <- Date_now ;;
  positive <- resolve_by_priority
                [it_positive item; it_pos item;
                 Dashboard.nested (it_scores item) sc_positive] ;;
  negative <- resolve_by_priority
                [it_negative item; it_neg item;
                 Dashboard.nested (it_scores item) sc_negative] ;;
  neutral <- resolve_by_priority
               [it_neutral item; it_neu item;
                Dashboard.nested (it_scores item) sc_neutral] ;;
  ret {| fe_timestamp := str_or (it_timestamp item) (TimeString now);
         fe_positive := positive;
         fe_negative := negative;
         fe_neutral := neutral |}.

(** A raw item that reports its scores in the nested object only. *)
Definition nestedOnly (positive negative neutral : Q) : Item :=
  {| it_timestamp := Some (Literal "10:15:00 AM");
     it_positive := Undefined; it_pos := Undefined;
     it_negative := Undefined; it_neg := Undefined;
     it_neutral := Undefined; it_neu := Undefined;
     it_scores := Some {| sc_positive := Num positive;
                          sc_negative := Num negative;
                          sc_neutral := Num neutral |};
     it_sentiment := None;
     it_confidence := Undefined;
     it_source := None |}.

(** A prediction item that carries a date and a point estimate only. *)
Definition bareEstimate (date : string) (predicted : Q) : PredItem :=
  {| pd_date := Some (Literal date); pd_day := None;
     pd_predicted := Num predicted; pd_value := Undefined;
     pd_confidence := Undefined;
     pd_lower := Undefined; pd_lower_bound := Undefined;
     pd_upper := Undefined; pd_upper_bound := Undefined;
     pd_positive_score := Undefined;
     pd_negative_score := Undefined;
     pd_neutral_score := Undefined |}.

(** A store with one twitter record, on day 1. *)
Definition oneRecordStore : list Backend.SentimentRecord :=
  [ {| Backend.source := Backend.twitter;
       Backend.score := {| Backend.positive := 60;
                           Backend.negative := 30;
                           Backend.neutral := 10 |};
       Backend.confidence := 9 # 10;
       Backend.created_at := 1 |} ].

(** A stored prediction for day [d]. *)
Definition storedPoint (d : Z) (predicted : Q) : Backend.PredictionPoint :=
  {| Backend.date := d;
     Backend.predicted := predicted;
     Backend.lower := predicted - 5;
     Backend.upper := predicted + 5;
     Backend.pp_confidence := 8 # 10;
     Backend.model_source := Backend.live |}.

(** A record store with ten days of history and, or without, one stored
    batch of five predictions. *)
Definition youngStore (batches : list (list Backend.PredictionPoint))
    : Backend.RecordStore :=
  {| Backend.history_span_days := 10;
     Backend.positive_series := [60; 62; 61]%Q;
     Backend.prediction_batches := batches |}.

Definition fiveStored : list Backend.PredictionPoint :=
  [ storedPoint 11 70; storedPoint 12 71; storedPoint 13 72;
    storedPoint 14 73; storedPoint 15 74 ].

(** A walk that climbs half a point a day, with deviations of at most
    two points and a band of three points either side. *)
Definition mildWalk : Backend.WalkPolicy :=
  {| Backend.drift := 1 # 2;
     Backend.spread := 4;
     Backend.margin := 3;
     Backend.default_seed := 50 |}.

(** Every stored point is well formed. *)
Definition store_well_formed (store : Backend.RecordStore) : Prop :=
  Forall (Forall Backend.well_formed) (Backend.prediction_batches store).

(** A forecasting capability that is down. *)
Definition noModel (series : list Q) (horizon : Z)
    : option (list Backend.Estimate) := None.

(** A prediction item that carries a date, a confidence and the three
    scores, but no [predicted] and no bounds. *)
Definition scoresOnly (date : string) (positive negative neutral : Q)
    : PredItem :=
  {| pd_date := Some (Literal date); pd_day := None;
     pd_predicted := Undefined; pd_value := Undefined;
     pd_confidence := Num 85;
     pd_lower := Undefined; pd_lower_bound := Undefined;
     pd_upper := Undefined; pd_upper_bound := Undefined;
     pd_positive_score := Num positive;
     pd_negative_score := Num negative;
     pd_neutral_score := Num neutral |}.

(** A world whose random source returns [d] at call [n] and 0 elsewhere. *)
Definition worldWith (now : Z) (n : nat) (d : Q) : World :=
  {| clock := now;
     draws := fun k => if Nat.eqb k n then d else 0%Q;
     cursor := O |}.

(** A world whose random source always returns [d]. *)
Definition constWorld (now : Z) (d : Q) : World :=
  {| clock := now; draws := fun _ => d; cursor := O |}.

(** A raw item that carries the three full-name fields. *)
Definition fullItem (item : Item) : Prop :=
  nullish (it_positive item) = false /\
  nullish (it_negative item) = false /\
  nullish (it_neutral item) = false.

(** The entry such an item becomes: its own scores, and its own
    timestamp when it has one. *)
Definition fullEntry (now : Z) (item : Item) : FeedEntry :=
  {| fe_timestamp := str_or (it_timestamp item) (TimeString now);
     fe_positive := it_positive item;
     fe_negative := it_negative item;
     fe_neutral := it_neutral item |}.

(** 1 when no source of the list is present, 0 otherwise. *)
Definition unresolved (sources : list jsval) : nat :=
  match first_present sources with
  | Some _ => O
  | None => 1%nat
  end.

(** The number of fields of an item that no source provides, for the
    dashboard that looks into [scores] and for the one that does not. *)
Definition missing (item : Item) : nat :=
  (unresolved [it_positive item; it_pos item;
               Dashboard.nested (it_scores item) sc_positive]
   + unresolved [it_negative item; it_neg item;
                 Dashboard.nested (it_scores item) sc_negative]
   + unresolved [it_neutral item; it_neu item;
                 Dashboard.nested (it_scores item) sc_neutral])%nat.

Definition total (l : list nat) : nat := fold_right Nat.add O l.

(** An item whose nested scores object provides nothing. *)
Definition noNested (item : Item) : Prop :=
  nullish (Dashboard.nested (it_scores item) sc_positive) = true /\
  nullish (Dashboard.nested (it_scores item) sc_negative) = true /\
  nullish (Dashboard.nested (it_scores item) sc_neutral) = true.

(** A poll whose request failed and that was not cancelled. *)
Definition failedPoll (t : Polling.Tick) : Prop :=
  (exists e, Polling.tk_result t = Rejected e) /\
  Polling.tk_cancelled t = false.

(** The timestamps of a list print instants in non-decreasing order, none
    later than [bound]. *)
Definition chronological (bound : Z) (st : list FeedEntry) : Prop :=
  exists ts,
    map fe_timestamp st = map TimeString ts /\
    StronglySorted Z.le ts /\ Forall (fun t => t <= bound) ts.

(** The point a prediction item is copied to. *)
Definition copyOf (d : PredItem) : ChartPoint :=
  {| cp_date := pd_date d;
     cp_predicted := pd_predicted d;
     cp_upper := pd_upper d;
     cp_lower := pd_lower d;
     cp_confidence := Undefined |}.

(** A failed poll at instant [t]. *)
Definition failedAt (t : Z) : Polling.Tick :=
  {| Polling.tk_clock := t;
     Polling.tk_result := Rejected (AxiosError "Network Error");
     Polling.tk_cancelled := false |}.

(** A raw item with the three full-name fields. *)
Definition fullOf (stamp : string) (positive negative neutral : Q) : Item :=
  {| it_timestamp := Some (Literal stamp);
     it_positive := Num positive; it_pos := Undefined;
     it_negative := Num negative; it_neg := Undefined;
     it_neutral := Num neutral; it_neu := Undefined;
     it_scores := None;
     it_sentiment := None;
     it_confidence := Undefined;
     it_source := None |}.

(** A value that is a number (not absent, not [null], not [NaN]). *)
Definition is_number (v : jsval) : Prop := exists q, v = Num q.

(** The labels a mock record can carry. *)
Definition sentiments : list string :=
  ["positive"; "negative"; "neutral"]%string.

(** A mock record is labelled: a confidence between 0.7 and 1, one of the
    four sources, one of the three sentiments. *)
Definition labelled (it : Item) : Prop :=
  between (7 # 10) 1 (it_confidence it) /\
  (exists s, it_source it = Some s /\ In s Api.sources) /\
  (exists l, it_sentiment it = Some l /\ In l sentiments).

(** All four numbers of a charted point are numbers. *)
Definition numeric_point (c : ChartPoint) : Prop :=
  is_number (cp_predicted c) /\ is_number (cp_upper c) /\
  is_number (cp_lower c) /\ is_number (cp_confidence c).

(** A prediction item with an estimate and both bounds. *)
Definition bandedEstimate (date : string) (lower predicted upper : Q)
    : PredItem :=
  {| pd_date := Some (Literal date); pd_day := None;
     pd_predicted := Num predicted; pd_value := Undefined;
     pd_confidence := Undefined;
     pd_lower := Num lower; pd_lower_bound := Undefined;
     pd_upper := Undefined; pd_upper_bound := Num upper;
     pd_positive_score := Undefined;
     pd_negative_score := Undefined;
     pd_neutral_score := Undefined |}.

End Props.

Import JS Env Payload View Props.
Local Open Scope js_scope.

(* ================================================================== *)
(** ** The operators on small inputs *)

Example or_else_skips_zero : or_else (Num 0) (Num 5) = Num 5.
Proof. reflexivity. Qed.

Example coalesce_keeps_zero : coalesce (Num 0) (Num 5) = Num 0.
Proof. reflexivity. Qed.

Example add_to_absent : add Undefined 3 = NaN /\ add Null 3 = Num 3.
Proof. split; reflexivity. Qed.

Example slice_keeps_the_tail : slice (-2) [1; 2; 3] = [2; 3].
Proof. reflexivity. Qed.

Example slice_of_a_short_array : slice (-20) [1; 2; 3] = [1; 2; 3].
Proof. reflexivity. Qed.

Example feed_of_seven (a b c d e f g : FeedEntry) :
  renderedFeed [a; b; c; d; e; f; g] = [g; f; e; d; c; b].
Proof. reflexivity. Qed.

Example null_element_falls_back :
  List.length
    (fst (Dashboard.fetchRealtime (Resolved (RtArray [None])) false []
            (constWorld 0 0))) = 6%nat.
Proof. reflexivity. Qed.

Example cancelled_run_changes_nothing (st : list FeedEntry) (w : World) :
  fst (Dashboard.fetchRealtime (Rejected (AxiosError "Network Error")) true
         st w) = st.
Proof. reflexivity. Qed.

Example client_mock_is_not_charted (w : World) (l : list (option PredItem)) :
  fst (Dashboard.loadPredictions (Resolved (PredObject false (Some l))) w)
  = getMockPredictiveData.
Proof. reflexivity. Qed.

(* ================================================================== *)
(** ** Facts about the environment and the operators *)

Lemma later_refl (w : World) : later w w.
Proof. split; reflexivity. Qed.

Lemma later_trans (w1 w2 w3 : World) :
  later w1 w2 -> later w2 w3 -> later w1 w3.
Proof. intros [a b] [c d]; split; congruence. Qed.

Lemma later_tick (k : nat) (w : World) : later w (tick k w).
Proof. split; reflexivity. Qed.

Lemma later_unit_draws (w w' : World) :
  later w w' -> unit_draws w -> unit_draws w'.
Proof. intros [_ Hd] H n. rewrite Hd. apply H. Qed.

Lemma unit_draws_worldWith (now : Z) (n : nat) (d : Q) :
  (0 <= d)%Q -> (d < 1)%Q -> unit_draws (worldWith now n d).
Proof.
  intros H0 H1 k; simpl.
  destruct (Nat.eqb k n); split; try assumption; try reflexivity.
  apply Qle_refl.
Qed.

Lemma unit_draws_constWorld (now : Z) (d : Q) :
  (0 <= d)%Q -> (d < 1)%Q -> unit_draws (constWorld now d).
Proof. intros H0 H1 k; simpl; split; assumption. Qed.

(** [Math.floor(r * n)] is an integer between 0 and [n - 1]. *)
Lemma floor_draw_bounds (r : Q) (n : Z) :
  (0 <= r)%Q -> (r < 1)%Q -> 0 < n ->
  0 <= Qfloor (r * inject_Z n) <= n - 1.
Proof.
  intros H0 H1 Hn.
  assert (Hq : (0 < inject_Z n)%Q) by (unfold Qlt; simpl; lia).
  split.
  - change 0 with (Qfloor (inject_Z 0)) at 1.
    apply Qfloor_resp_le.
    change (inject_Z 0) with 0%Q.
    apply Qmult_le_0_compat; [assumption | apply Qlt_le_weak; assumption].
  - assert (Hlt : (r * inject_Z n < inject_Z n)%Q).
    { setoid_replace (inject_Z n) with (1 * inject_Z n)%Q at 2 by ring.
      apply Qmult_lt_compat_r; assumption. }
    assert (Hf := Qfloor_le (r * inject_Z n)).
    assert (H2 : (inject_Z (Qfloor (r * inject_Z n)) < inject_Z n)%Q)
      by (eapply Qle_lt_trans; eassumption).
    rewrite <- Zlt_Qlt in H2. lia.
Qed.

(** [slice(-n)] keeps at most [n] elements, the last ones ([n] positive:
    [slice(-0)] is [slice(0)], the whole array). *)
Lemma slice_neg_length {A : Type} (n : nat) (l : list A) :
  (0 < n)%nat ->
  List.length (slice (- Z.of_nat n) l) = Nat.min n (List.length l).
Proof.
  intros Hn. unfold slice. rewrite length_skipn.
  destruct (- Z.of_nat n <? 0) eqn:E.
  - apply Z.ltb_lt in E. lia.
  - apply Z.ltb_ge in E. lia.
Qed.

Lemma slice_neg_skipn {A : Type} (n : nat) (l : list A) :
  (0 < n)%nat ->
  slice (- Z.of_nat n) l = skipn (List.length l - n) l.
Proof.
  intros Hn. unfold slice.
  destruct (- Z.of_nat n <? 0) eqn:E.
  - f_equal. lia.
  - apply Z.ltb_ge in E. lia.
Qed.

Lemma mapM_length {A B : Type} (f : A -> M B) (l : list A) (w : World) :
  List.length (fst (mapM f l w)) = List.length l.
Proof.
  revert w; induction l as [|x xs IH]; intros w; simpl; [reflexivity|].
  unfold bind. destruct (f x w) as [y w1].
  specialize (IH w1). destruct (mapM f xs w1) as [ys w2].
  simpl in *. now rewrite IH.
Qed.

(** A loop whose body only draws random numbers relates every index to
    its output, whatever was drawn before. *)
Lemma mapM_Forall2 {A B : Type} (f : A -> M B) (R : A -> B -> Prop)
    (w0 : World) :
  (forall x w, later w0 w -> later w0 (snd (f x w)) /\ R x (fst (f x w))) ->
  forall l w, later w0 w ->
    later w0 (snd (mapM f l w)) /\ Forall2 R l (fst (mapM f l w)).
Proof.
  intros Hf l; induction l as [|x xs IH]; intros w Hw; simpl.
  - split; [assumption | constructor].
  - unfold bind. destruct (Hf x w Hw) as [H1 H2].
    destruct (f x w) as [y w1]; simpl in *.
    destruct (IH w1 H1) as [H3 H4].
    destruct (mapM f xs w1) as [ys w2]; simpl in *.
    split; [assumption | constructor; assumption].
Qed.

Lemma mapItems_length {A B : Type} (f : A -> M B) (arr : list (option A))
    (w : World) (ys : list B) :
  fst (mapItems f arr w) = Resolved ys -> List.length ys = List.length arr.
Proof.
  revert w ys; induction arr as [|[x|] rest IH]; intros w ys; simpl.
  - intros H; inversion H; reflexivity.
  - unfold bind. destruct (f x w) as [y w1].
    specialize (IH w1). destruct (mapItems f rest w1) as [[zs|e] w2];
      simpl in *; intros H; inversion H; subst.
    simpl. f_equal. now apply IH.
  - intros H; discriminate H.
Qed.

(* ================================================================== *)
(** ** Facts about the mock generators of the HTTP client *)

Lemma floor_between (r : Q) (n k : Z) :
  (0 <= r)%Q -> (r < 1)%Q -> 0 < n ->
  between (inject_Z k) (inject_Z (k + n - 1))
          (Num (Math_floor (r * inject_Z n) + inject_Z k)).
Proof.
  intros H0 H1 Hn. destruct (floor_draw_bounds r n H0 H1 Hn) as [Ha Hb].
  unfold between, Math_floor. rewrite <- inject_Z_plus.
  split; rewrite <- Zle_Qle; lia.
Qed.

Lemma real_between (r n k : Q) :
  (0 <= r)%Q -> (r < 1)%Q -> (0 <= n)%Q ->
  between k (n + k) (Num (r * n + k)).
Proof.
  intros H0 H1 Hn. unfold between.
  assert (Ha : (0 <= r * n)%Q) by (apply Qmult_le_0_compat; assumption).
  assert (Hb : (r * n <= 1 * n)%Q).
  { apply Qmult_le_compat_r; [apply Qlt_le_weak|]; assumption. }
  split; lra.
Qed.

Lemma between_weaken (lo hi lo' hi' : Q) (v : jsval) :
  (lo' <= lo)%Q -> (hi <= hi')%Q -> between lo hi v -> between lo' hi' v.
Proof.
  destruct v; simpl; try tauto. intros H1 H2 [H3 H4]; split; lra.
Qed.

Lemma hist_loop_mapM (baseDate : Z) (i : nat) (w : World) :
  Api.hist_loop baseDate i w = mapM (Api.hist_point baseDate) (countdown i) w.
Proof.
  revert w; induction i as [|i IH]; intros w; [reflexivity|].
  cbn [Api.hist_loop countdown mapM]. unfold bind.
  destruct (Api.hist_point baseDate (Z.of_nat (S i)) w) as [b w1].
  now rewrite IH.
Qed.

Lemma pred_loop_mapM (baseDate i : Z) (n : nat) (w : World) :
  Api.pred_loop baseDate i n w = mapM (Api.pred_point baseDate) (countup i n) w.
Proof.
  revert i w; induction n as [|n IH]; intros i w; [reflexivity|].
  cbn [Api.pred_loop countup mapM]. unfold bind.
  destruct (Api.pred_point baseDate i w) as [p w1].
  now rewrite IH.
Qed.

Lemma rt_loop_mapM (now : Z) (i : nat) (w : World) :
  Api.rt_loop now i w = mapM (Api.rt_point now) (countdown i) w.
Proof.
  revert w; induction i as [|i IH]; intros w; [reflexivity|].
  cbn [Api.rt_loop countdown mapM]. unfold bind.
  destruct (Api.rt_point now (Z.of_nat (S i)) w) as [p w1].
  now rewrite IH.
Qed.

Lemma countdown_length (i : nat) : List.length (countdown i) = i.
Proof. induction i; simpl; congruence. Qed.

Lemma countup_length (i : Z) (n : nat) : List.length (countup i n) = n.
Proof. revert i; induction n; intros i; simpl; congruence. Qed.

(** One iteration of each loop, with the draws it consumes made explicit. *)
Lemma hist_point_run (baseDate i : Z) (w : World) :
  Api.hist_point baseDate i w =
  ({| hi_date := Some (DateString (baseDate - i * day));
      hi_positive := Num (Math_floor (draws w (cursor w) * 30) + 60);
      hi_negative := Num (Math_floor (draws w (1 + cursor w)%nat * 15) + 5);
      hi_neutral := Num (Math_floor (draws w (2 + cursor w)%nat * 15) + 5);
      hi_total := Num (Math_floor (draws w (3 + cursor w)%nat * 1000) + 1000) |},
   tick 4 w).
Proof. reflexivity. Qed.

Lemma pred_point_run (baseDate i : Z) (w : World) :
  Api.pred_point baseDate i w =
  ({| pd_date := Some (DateString (baseDate + i * day));
      pd_day := None;
      pd_predicted := Num (Math_floor (draws w (cursor w) * 20) + 70);
      pd_value := Undefined;
      pd_confidence := Num (Math_floor (draws w (1 + cursor w)%nat * 20) + 70);
      pd_lower := Num (Math_floor (draws w (2 + cursor w)%nat * 10) + 65);
      pd_lower_bound := Undefined;
      pd_upper := Num (Math_floor (draws w (3 + cursor w)%nat * 10) + 80);
      pd_upper_bound := Undefined;
      pd_positive_score := Num (Math_floor (draws w (4 + cursor w)%nat * 20) + 70);
      pd_negative_score := Num (Math_floor (draws w (5 + cursor w)%nat * 15) + 5);
      pd_neutral_score := Num (Math_floor (draws w (6 + cursor w)%nat * 15) + 5) |},
   tick 7 w).
Proof. reflexivity. Qed.

Lemma rt_point_run (now i : Z) (w : World) :
  exists (k : nat) (s : string),
    Api.rt_point now i w =
    ({| it_timestamp := Some (TimeString (now - i * minute));
        it_positive := Num (draws w (cursor w) * 40 + 50);
        it_pos := Undefined;
        it_negative := Num (draws w (1 + cursor w)%nat * 20 + 5);
        it_neg := Undefined;
        it_neutral := Num (draws w (2 + cursor w)%nat * 20 + 5);
        it_neu := Undefined;
        it_scores := None;
        it_sentiment := Some s;
        it_confidence := Num (draws w (k + cursor w)%nat * (3 # 10) + (7 # 10));
        it_source := index Api.sources
                       (Math_floor (draws w (S k + cursor w)%nat * 4)) |},
     tick (S (S k)) w).
Proof.
  unfold Api.rt_point, Api.random_real, Api.random_sentiment, bind, ret,
    Math_random; cbn [fst snd draws cursor clock].
  destruct (gt (draws w (S (S (S (cursor w))))) (3 # 10)).
  - exists 4%nat, "positive"%string. reflexivity.
  - cbn [fst snd draws cursor clock].
    destruct (gt (draws w (S (S (S (S (cursor w)))))) (5 # 10)).
    + exists 5%nat, "negative"%string. reflexivity.
    + exists 5%nat, "neutral"%string. reflexivity.
Qed.

Lemma Forall2_map_eq {A B C : Type} (g : B -> C) (h : A -> C)
    (l : list A) (l' : list B) :
  Forall2 (fun x y => g y = h x) l l' -> map g l' = map h l.
Proof. induction 1; simpl; congruence. Qed.

Lemma Forall2_Forall_r {A B : Type} (R : A -> B -> Prop) (P : B -> Prop)
    (l : list A) (l' : list B) :
  (forall x y, R x y -> P y) -> Forall2 R l l' -> Forall P l'.
Proof. intros H; induction 1; constructor; eauto. Qed.

Lemma Forall2_impl {A B : Type} (R S : A -> B -> Prop)
    (l : list A) (l' : list B) :
  (forall x y, R x y -> S x y) -> Forall2 R l l' -> Forall2 S l l'.
Proof. intros H; induction 1; constructor; eauto. Qed.

Lemma countdown_range (i : nat) (x : Z) :
  In x (countdown i) -> 1 <= x <= Z.of_nat i.
Proof.
  induction i as [|i IH]; simpl; [tauto|].
  intros [H|H]; [lia | specialize (IH H); lia].
Qed.

Lemma countup_range (i : Z) (n : nat) (x : Z) :
  In x (countup i n) -> i <= x.
Proof.
  revert i; induction n as [|n IH]; intros i; simpl; [tauto|].
  intros [H|H]; [lia | specialize (IH _ H); lia].
Qed.

(** Counting down the minutes (or days) before [now] walks forward in
    time: the instants are strictly ascending. *)
Lemma countdown_ascending (now step : Z) (i : nat) :
  0 < step ->
  StronglySorted Z.lt (map (fun k => now - k * step) (countdown i)).
Proof.
  intros Hs; induction i as [|i IH]; cbn [countdown map]; constructor;
    [assumption|].
  apply Forall_forall. intros t Ht. apply in_map_iff in Ht.
  destruct Ht as [k [<- Hk]]. apply countdown_range in Hk.
  assert (k * step < Z.of_nat (S i) * step)
    by (apply Z.mul_lt_mono_pos_r; lia).
  lia.
Qed.

(** Counting up the days after [now] is strictly ascending too. *)
Lemma countup_ascending (now step i : Z) (n : nat) :
  0 < step ->
  StronglySorted Z.lt (map (fun k => now + k * step) (countup i n)).
Proof.
  intros Hs; revert i; induction n as [|n IH]; intros i;
    cbn [countup map]; constructor; [apply IH|].
  apply Forall_forall. intros t Ht. apply in_map_iff in Ht.
  destruct Ht as [k [<- Hk]]. apply countup_range in Hk.
  assert (i * step < k * step) by (apply Z.mul_lt_mono_pos_r; lia).
  lia.
Qed.

Lemma generateMockRealtimeData_length (limit : option Z) (w : World) :
  List.length (fst (Api.generateMockRealtimeData limit w))
  = Z.to_nat (Api.default 20 limit).
Proof.
  unfold Api.generateMockRealtimeData, bind, Date_now.
  rewrite rt_loop_mapM, mapM_length. apply countdown_length.
Qed.

Lemma generateMockPredictions_length (days : option Z) (w : World) :
  List.length (fst (Api.generateMockPredictions days w))
  = Z.to_nat (Api.default 5 days).
Proof.
  unfold Api.generateMockPredictions, bind, Date_now.
  rewrite pred_loop_mapM, mapM_length. apply countup_length.
Qed.

Lemma generateMockHistoricalData_length (days : option Z) (w : World) :
  List.length (fst (Api.generateMockHistoricalData days w))
  = Z.to_nat (Api.default 7 days).
Proof.
  unfold Api.generateMockHistoricalData, bind, Date_now.
  rewrite hist_loop_mapM, mapM_length. apply countdown_length.
Qed.

Lemma rt_point_record (now i : Z) (w0 w : World) :
  unit_draws w0 -> later w0 w ->
  later w0 (snd (Api.rt_point now i w)) /\
  rt_record now i (fst (Api.rt_point now i w)).
Proof.
  intros U L. destruct (rt_point_run now i w) as [k [s ->]].
  cbn [fst snd]. split.
  - eapply later_trans; [exact L | apply later_tick].
  - assert (U' := later_unit_draws _ _ L U).
    assert (H0 := U' (cursor w)). assert (H1 := U' (1 + cursor w)%nat).
    assert (H2 := U' (2 + cursor w)%nat).
    unfold rt_record, synthetic_score;
      cbn [it_timestamp it_positive it_negative it_neutral].
    cbn [Nat.add] in H1, H2. destruct H0, H1, H2.
    repeat split; try reflexivity; simpl; lra.
Qed.

Lemma generateMockRealtimeData_records (limit : option Z) (w : World) :
  unit_draws w ->
  Forall2 (rt_record (clock w))
          (countdown (Z.to_nat (Api.default 20 limit)))
          (fst (Api.generateMockRealtimeData limit w)).
Proof.
  intros U. unfold Api.generateMockRealtimeData, bind, Date_now.
  rewrite rt_loop_mapM.
  apply (mapM_Forall2 (Api.rt_point (clock w)) (rt_record (clock w)) w).
  - intros x w1 L. apply rt_point_record; assumption.
  - apply later_refl.
Qed.

Lemma generateMockRealtimeData_stamps (limit : option Z) (w : World) :
  map it_timestamp (fst (Api.generateMockRealtimeData limit w))
  = map (fun t => Some (TimeString t))
        (map (fun i => clock w - i * minute)
             (countdown (Z.to_nat (Api.default 20 limit)))).
Proof.
  unfold Api.generateMockRealtimeData, bind, Date_now.
  rewrite rt_loop_mapM, map_map.
  apply Forall2_map_eq with
    (h := fun i => Some (TimeString (clock w - i * minute))).
  apply (mapM_Forall2 (Api.rt_point (clock w)) _ w); [|apply later_refl].
  intros x w1 L. destruct (rt_point_run (clock w) x w1) as [k [s ->]].
  cbn [fst snd it_timestamp]. split; [|reflexivity].
  eapply later_trans; [exact L | apply later_tick].
Qed.

(** The dashboard's own generator, one entry with its draws explicit. *)
Lemma mockEntry_run (i : Z) (w : World) :
  Dashboard.mockEntry i w =
  ({| fe_timestamp := TimeString (clock w - i * 60000);
      fe_positive := Num (draws w (cursor w) * 40 + 50);
      fe_negative := Num (draws w (1 + cursor w)%nat * 20 + 5);
      fe_neutral := Num (draws w (2 + cursor w)%nat * 20 + 5) |},
   tick 3 w).
Proof. reflexivity. Qed.

Lemma mockEntry_stamp (w0 : World) (i : Z) (w : World) :
  later w0 w ->
  later w0 (snd (Dashboard.mockEntry i w)) /\
  fe_timestamp (fst (Dashboard.mockEntry i w)) = TimeString (clock w0 - i * 60000).
Proof.
  intros L. rewrite mockEntry_run. cbn [fst snd fe_timestamp].
  split; [eapply later_trans; [exact L | apply later_tick]|].
  destruct L as [-> _]. reflexivity.
Qed.

Lemma mockEntry_record (w0 : World) (i : Z) (w : World) :
  unit_draws w0 -> later w0 w ->
  later w0 (snd (Dashboard.mockEntry i w)) /\
  feed_record (clock w0) i (fst (Dashboard.mockEntry i w)).
Proof.
  intros U L. destruct (mockEntry_stamp w0 i w L) as [L' Hs].
  split; [assumption|]. split; [assumption|].
  rewrite mockEntry_run. cbn [fst fe_positive fe_negative fe_neutral].
  assert (U' := later_unit_draws _ _ L U).
  assert (H0 := U' (cursor w)). assert (H1 := U' (1 + cursor w)%nat).
  assert (H2 := U' (2 + cursor w)%nat).
  cbn [Nat.add] in H1, H2. destruct H0, H1, H2.
  unfold synthetic_score. repeat split; simpl; lra.
Qed.

Lemma Dashboard_generateMockRealtimeData_length (w : World) :
  List.length (fst (Dashboard.generateMockRealtimeData w)) = 6%nat.
Proof. unfold Dashboard.generateMockRealtimeData. now rewrite mapM_length. Qed.

(* ================================================================== *)
(** ** The recent-sentiment operation *)

(** The client with local recovery resolves whatever the request does. *)
Lemma getRealtimeApi_recovers (source : option string) (limit : option Z)
    (http : Outcome RtBody) (w : World) :
  exists body, fst (Api.getRealtimeApi source limit http w) = Resolved body.
Proof.
  destruct http as [data|error]; simpl.
  - now exists data.
  - unfold bind. destruct (Api.generateMockRealtimeData _ w) as [mock w1].
    now eexists.
Qed.

(** On a failed request it resolves with [{ data: [...] }] holding
    [limit] mock records. *)
Lemma getRealtimeApi_fallback (source : option string) (limit : option Z)
    (error : Exn) (w : World) :
  exists mock,
    fst (Api.getRealtimeApi source limit (Rejected error) w)
    = Resolved (RtObject (RtDataArray (map Some mock))) /\
    List.length mock = Z.to_nat (Api.default 50 limit).
Proof.
  unfold Api.getRealtimeApi, bind.
  assert (H := generateMockRealtimeData_length (Some (Api.default 50 limit)) w).
  destruct (Api.generateMockRealtimeData _ w) as [mock w1].
  exists mock. split; [reflexivity | exact H].
Qed.

(** C1.  The recent-sentiment operation must never hand a failure of the
    HTTP request to its caller.  [getRealtimeApi] of [api.js] does: it
    has no handler, so for every failure [e] of the request the promise
    it returns is rejected with [e].  The sibling with the [try]/[catch]
    does what the claim says: on the same failure it resolves with a
    [{ data: [...] }] payload of [limit] synthetic records. *)
Theorem RootApi_getRealtimeApi_propagates :
  forall (source : option string) (limit : option Z) (e : Exn) (w : World),
    fst (RootApi.getRealtimeApi source limit (Rejected e) w) = Rejected e /\
    exists mock,
      fst (Api.getRealtimeApi source limit (Rejected e) w)
      = Resolved (RtObject (RtDataArray (map Some mock))) /\
      List.length mock = Z.to_nat (Api.default 50 limit).
Proof.
  intros source limit e w. split; [reflexivity|].
  apply getRealtimeApi_fallback.
Qed.

(** A present source wins unchanged: nothing is rescaled or clamped. *)
Lemma resolve_passes_through (full abbr : jsval) (scores : option Scores)
    (field : Scores -> jsval) (w : World) :
  nullish full = false ->
  Dashboard.resolve full abbr scores field w = (full, w).
Proof.
  intros H. unfold Dashboard.resolve, coalesceM, coalesce.
  rewrite H, H. reflexivity.
Qed.

(** C3, as the code has it.  Every score of a synthetic record -- from
    the fallback of [getRealtimeApi] and from the dashboard's own
    generator alike -- has its three components in [0,100]: positive in
    [50,90], negative and neutral in [5,25].  Their sum is not brought to
    100: it lies between 60 and 140.  A component that a raw item
    provides is passed through unchanged; a random placeholder and the
    components of a locally simulated record lie in [0,100]. *)
Theorem synthetic_scores_in_range :
  forall (limit : option Z) (w : World),
    unit_draws w ->
    Forall (fun it =>
              synthetic_score (it_positive it) (it_negative it) (it_neutral it))
           (fst (Api.generateMockRealtimeData limit w)) /\
    Forall (fun e =>
              synthetic_score (fe_positive e) (fe_negative e) (fe_neutral e))
           (fst (Dashboard.generateMockRealtimeData w)) /\
    (forall (q : Q) (abbr : jsval) (scores : option Scores)
            (field : Scores -> jsval),
        fst (Dashboard.resolve (Num q) abbr scores field w) = Num q) /\
    (forall field : Scores -> jsval,
        between 0 100 (fst (Dashboard.resolve Undefined Undefined None field w))) /\
    (let s := fst (LegacyDashboard.newSentiment w) in
     between 0 100 (fe_positive s) /\ between 0 100 (fe_negative s) /\
     between 0 100 (fe_neutral s)).
Proof.
  intros limit w U. split; [|split; [|split; [|split]]].
  - eapply Forall2_Forall_r;
      [|apply (generateMockRealtimeData_records limit w U)].
    intros x y [_ H]; exact H.
  - unfold Dashboard.generateMockRealtimeData.
    eapply Forall2_Forall_r with (R := feed_record (clock w)).
    + intros x y [_ H]; exact H.
    + apply (mapM_Forall2 Dashboard.mockEntry (feed_record (clock w)) w);
        [|apply later_refl].
      intros x w1 L. apply mockEntry_record; assumption.
  - intros q abbr scores field.
    now rewrite resolve_passes_through.
  - intros field. destruct (U (cursor w)). simpl. split; lra.
  - assert (H0 := U (cursor w)). assert (H1 := U (S (cursor w))).
    assert (H2 := U (S (S (cursor w)))). destruct H0, H1, H2.
    simpl. repeat split; lra.
Qed.

(** The same for one fallback record, drawn with every draw equal to 0. *)
Lemma synthetic_scores_in_range_witness :
  unit_draws (constWorld 0 0) /\
  Forall (fun it =>
            synthetic_score (it_positive it) (it_negative it) (it_neutral it))
         (fst (Api.generateMockRealtimeData (Some 1) (constWorld 0 0))).
Proof.
  assert (U : unit_draws (constWorld 0 0)).
  { intros n; simpl; split; [apply Qle_refl | reflexivity]. }
  split; [exact U|].
  exact (proj1 (synthetic_scores_in_range (Some 1) (constWorld 0 0) U)).
Defined.

(** C3 as stated fails: with every draw equal to 0 the fallback record has
    the score (50, 5, 5), whose sum 60 is not within 0.5 of 100. *)
Lemma synthetic_score_sum_is_60 :
  exists it,
    fst (Api.generateMockRealtimeData (Some 1) (constWorld 0 0)) = [it] /\
    it_positive it = Num 50 /\ it_negative it = Num 5 /\
    it_neutral it = Num 5 /\
    ~ score_invariant (it_positive it) (it_negative it) (it_neutral it).
Proof.
  eexists. split; [reflexivity|].
  cbn [it_positive it_negative it_neutral].
  repeat split.
  unfold score_invariant.
  intros (_ & _ & _ & H & _). vm_compute in H. apply H. reflexivity.
Qed.

(** C5, as the code has it.  The client keeps no cache: a call forwards
    the body of its own request unchanged and draws nothing, so two calls
    with the same arguments return identical output whenever both
    requests succeed with the same body, whatever the clock and the
    random source are. *)
Theorem getRealtimeApi_repeatable_on_success :
  forall (source : option string) (limit : option Z) (body : RtBody)
         (w1 w2 : World),
    fst (Api.getRealtimeApi source limit (Resolved body) w1) = Resolved body /\
    fst (Api.getRealtimeApi source limit (Resolved body) w2) = Resolved body /\
    snd (Api.getRealtimeApi source limit (Resolved body) w1) = w1 /\
    snd (Api.getRealtimeApi source limit (Resolved body) w2) = w2.
Proof. intros; repeat split. Qed.

(** C5 as stated fails on the fallback path: two calls with the same
    (source, limit), at t = 0 s and t = 60 s, both with a failed request,
    return different records as soon as the random draws differ: here a
    positive component of 50 in the first and of 70 in the second. *)
Lemma getRealtimeApi_fallback_not_repeatable :
  let failed := Rejected (AxiosError "Network Error") in
  let call now d :=
    fst (Api.getRealtimeApi (Some "twitter"%string) (Some 1) failed
           (constWorld now d)) in
  call 0 0%Q <> call 60000 (1 # 2)%Q /\
  exists a b,
    call 0 0%Q = Resolved (RtObject (RtDataArray [Some a])) /\
    call 60000 (1 # 2)%Q = Resolved (RtObject (RtDataArray [Some b])) /\
    is_num 50 (it_positive a) /\ is_num 70 (it_positive b).
Proof.
  intros failed call. split.
  - intros H. unfold call, failed in H. vm_compute in H. discriminate H.
  - do 2 eexists. split; [reflexivity|]. split; [reflexivity|].
    split; reflexivity.
Qed.

(** C7, as the code has it.  A sequence that comes from the external
    source is returned as the source sent it.  The fallback sequence of
    [getRealtimeApi] is ordered by ascending synthetic timestamp, most
    recent last: one record per minute, from [limit] minutes before the
    call to one minute before it.  Only the dashboard's own six-record
    generator is ordered by descending timestamp, the call instant first. *)
Theorem realtime_sequences_order :
  forall (source : option string) (limit : option Z) (w : World),
    (forall body,
        fst (Api.getRealtimeApi source limit (Resolved body) w) = Resolved body) /\
    ordered Z.lt TimeString
      (map it_timestamp (fst (Api.generateMockRealtimeData limit w))) /\
    ordered Z.gt TimeString
      (map (fun e => Some (fe_timestamp e))
           (fst (Dashboard.generateMockRealtimeData w))).
Proof.
  intros source limit w. split; [reflexivity|]. split.
  - eexists. split; [apply generateMockRealtimeData_stamps|].
    apply countdown_ascending. reflexivity.
  - exists (map (fun i => clock w - i * 60000) (map Z.of_nat (seq 0 6))).
    split.
    + unfold prints. rewrite map_map.
      apply Forall2_map_eq with
        (h := fun i => Some (TimeString (clock w - i * 60000))).
      unfold Dashboard.generateMockRealtimeData.
      apply (mapM_Forall2 Dashboard.mockEntry _ w); [|apply later_refl].
      intros x w1 L. destruct (mockEntry_stamp w x w1 L) as [L' ->].
      split; [assumption | reflexivity].
    + cbn [seq map].
      repeat (constructor; [|repeat (constructor; [lia|]); constructor]).
      constructor.
Qed.

(** C7 as stated fails for the fallback of [getRealtimeApi]: called at
    t = 120000 ms with limit 2 it prints the instants 0 and 60000 in this
    order, which is not descending. *)
Lemma fallback_sequence_not_descending :
  map it_timestamp
      (fst (Api.generateMockRealtimeData (Some 2) (constWorld 120000 0)))
  = [Some (TimeString 0); Some (TimeString 60000)] /\
  ~ ordered Z.gt TimeString
      (map it_timestamp
           (fst (Api.generateMockRealtimeData (Some 2) (constWorld 120000 0)))).
Proof.
  split; [reflexivity|].
  intros [ts [Hp Hs]]. unfold prints in Hp.
  destruct ts as [|a [|b [|c ts]]]; try discriminate Hp.
  vm_compute in Hp. injection Hp as Ha Hb. subst a b.
  inversion Hs as [|x l _ Hall]; subst.
  inversion Hall as [|y l' Hgt _]; subst. lia.
Qed.

(* ================================================================== *)
(** ** The synthetic forecast *)

Lemma pred_point_record (baseDate i : Z) (w0 w : World) :
  unit_draws w0 -> later w0 w ->
  later w0 (snd (Api.pred_point baseDate i w)) /\
  pred_record baseDate i (fst (Api.pred_point baseDate i w)).
Proof.
  intros U L. rewrite pred_point_run. cbn [fst snd]. split.
  - eapply later_trans; [exact L | apply later_tick].
  - assert (U' := later_unit_draws _ _ L U).
    unfold pred_record;
      cbn [pd_date pd_predicted pd_confidence pd_lower pd_upper].
    split; [reflexivity|].
    split; [apply (floor_between _ 20 70); try apply U'; reflexivity|].
    split; [apply (floor_between _ 20 70); try apply U'; reflexivity|].
    split; [apply (floor_between _ 10 65); try apply U'; reflexivity|].
    apply (floor_between _ 10 80); try apply U'; reflexivity.
Qed.

(** What does hold of the synthetic forecast: exactly [days] points, one
    per day from the day after the call on, with the point estimate
    between 70 and 89 (hence within [0,100]) and the two bounds in their
    own ranges. *)
Lemma generateMockPredictions_records (days : option Z) (w : World) :
  unit_draws w ->
  Forall2 (pred_record (clock w))
          (countup 1 (Z.to_nat (Api.default 5 days)))
          (fst (Api.generateMockPredictions days w)).
Proof.
  intros U. unfold Api.generateMockPredictions, bind, Date_now.
  rewrite pred_loop_mapM.
  apply (mapM_Forall2 (Api.pred_point (clock w)) (pred_record (clock w)) w).
  - intros x w1 L. apply pred_point_record; assumption.
  - apply later_refl.
Qed.

Lemma generateMockPredictions_dates (days : option Z) (w : World) :
  unit_draws w ->
  ordered Z.lt DateString (map pd_date (fst (Api.generateMockPredictions days w))).
Proof.
  intros U.
  exists (map (fun i => clock w + i * day)
              (countup 1 (Z.to_nat (Api.default 5 days)))).
  split.
  - unfold prints. rewrite map_map.
    apply Forall2_map_eq with
      (h := fun i => Some (DateString (clock w + i * day))).
    eapply Forall2_impl; [|apply (generateMockPredictions_records days w U)].
    intros x y [H _]; exact H.
  - apply countup_ascending. reflexivity.
Qed.

(** C2.  Every point of a forecast must satisfy lower <= predicted <=
    upper.  The synthetic fallback draws the three numbers independently,
    the point estimate from 70..89, the lower bound from 65..74 and the
    upper bound from 80..89, so the ranges overlap: for one day, with the
    third draw of [Math.random] equal to 0.9 and the others to 0, the
    point is (predicted 70, lower 74, upper 80) and the lower bound lies
    above the estimate.  The dashboard's mapping breaks the band as well:
    it takes the estimate from [positive_score] when [predicted] is
    absent, but the default bounds from [predicted] alone, so the item
    [{ date, positive_score: 80, ... }] becomes (predicted 80, lower -3,
    upper 3). *)
Theorem forecast_points_break_band :
  unit_draws (worldWith 0 2 (9 # 10)) /\
  (exists p,
      fst (Api.generateMockPredictions (Some 1) (worldWith 0 2 (9 # 10))) = [p] /\
      pd_predicted p = Num 70 /\ pd_lower p = Num 74 /\ pd_upper p = Num 80 /\
      ~ band_ok (pd_lower p) (pd_predicted p) (pd_upper p)) /\
  (let c := fst (Dashboard.mapPrediction (scoresOnly "10/30" 80 15 5)
                   (constWorld 0 0)) in
   cp_predicted c = Num 80 /\ cp_lower c = Num (- (3)) /\ cp_upper c = Num 3 /\
   ~ band_ok (cp_lower c) (cp_predicted c) (cp_upper c)).
Proof.
  split; [|split].
  - apply unit_draws_worldWith; [discriminate | reflexivity].
  - eexists. split; [reflexivity|].
    cbn [pd_predicted pd_lower pd_upper].
    split; [reflexivity|]. split; [reflexivity|]. split; [reflexivity|].
    intros [H _]. vm_compute in H. apply H. reflexivity.
  - split; [reflexivity|]. split; [reflexivity|]. split; [reflexivity|].
    intros [_ H]. vm_compute in H. apply H. reflexivity.
Qed.

(* ================================================================== *)
(** ** The dashboard's mappings *)

Lemma truthy_is_num (v : jsval) :
  truthy v = true -> exists p, v = Num p.
Proof. destruct v; simpl; try discriminate. intros _. now eexists. Qed.

(** C10.  A prediction item with a truthy [predicted] and without
    [upper], [lower], [upper_bound] and [lower_bound] is mapped, by either
    dashboard, to a point with upper = predicted + 3 and lower =
    predicted - 3, which therefore satisfies lower <= predicted <= upper. *)
Theorem mapPrediction_default_band :
  forall (d : PredItem) (w : World),
    truthy (pd_predicted d) = true ->
    pd_upper d = Undefined -> pd_upper_bound d = Undefined ->
    pd_lower d = Undefined -> pd_lower_bound d = Undefined ->
    default_band d (fst (Dashboard.mapPrediction d w)) /\
    default_band d (fst (LegacyDashboard.mapPrediction d w)).
Proof.
  intros d w Ht Hu Hub Hl Hlb.
  destruct (truthy_is_num _ Ht) as [p Hp].
  assert (Hband : band_ok (sub (Num p) 3) (Num p) (add (Num p) 3))
    by (split; simpl; lra).
  rewrite Hp in Ht. cbn [truthy] in Ht.
  unfold default_band.
  split;
    cbn [Dashboard.mapPrediction LegacyDashboard.mapPrediction ret fst
         cp_predicted cp_upper cp_lower];
    rewrite Hu, Hub, Hl, Hlb, Hp; unfold or_else; cbn [truthy];
    rewrite ?Ht; cbn [truthy]; rewrite ?Ht;
    repeat split; apply Hband.
Qed.

(** The same for the item [{ date: '10/30', predicted: 80 }]. *)
Lemma mapPrediction_default_band_witness :
  default_band (bareEstimate "10/30" 80)
    (fst (Dashboard.mapPrediction (bareEstimate "10/30" 80) (constWorld 0 0))) /\
  default_band (bareEstimate "10/30" 80)
    (fst (LegacyDashboard.mapPrediction (bareEstimate "10/30" 80)
            (constWorld 0 0))).
Proof.
  apply (mapPrediction_default_band (bareEstimate "10/30" 80) (constWorld 0 0));
    reflexivity.
Defined.

(** The lookup of the dashboard is the priority list of the spec. *)
Lemma resolve_by_priority_refines (full abbr : jsval)
    (scores : option Scores) (field : Scores -> jsval) (w : World) :
  Dashboard.resolve full abbr scores field w
  = resolve_by_priority [full; abbr; Dashboard.nested scores field] w.
Proof.
  unfold Dashboard.resolve, resolve_by_priority, first_present, coalesceM,
    coalesce.
  destruct full, abbr, (Dashboard.nested scores field); reflexivity.
Qed.

(** C4.  Each sentiment field is to be resolved from the full-name key,
    then the abbreviated key, then the nested scores object, and a random
    value only when all three are absent.  The dashboard with the
    nested-scores lookup does exactly that, for every item (first
    conjunct).  The other dashboard never looks into [scores]: for the
    item [{ scores: { positive: 80, negative: 15, neutral: 5 } }] and a
    random source that returns 0.5 it yields the random 50 for each field,
    where the first yields 80, 15 and 5 and draws nothing. *)
Theorem LegacyDashboard_skips_nested_scores :
  (forall (item : Item) (w : World),
      Dashboard.processItem item w = normalize_by_priority item w) /\
  let item := nestedOnly 80 15 5 in
  let w := constWorld 0 (1 # 2) in
  let good := Dashboard.processItem item w in
  let bad := LegacyDashboard.processItem item w in
  fe_positive (fst good) = Num 80 /\ fe_negative (fst good) = Num 15 /\
  fe_neutral (fst good) = Num 5 /\ cursor (snd good) = O /\
  is_num 50 (fe_positive (fst bad)) /\ is_num 50 (fe_negative (fst bad)) /\
  is_num 50 (fe_neutral (fst bad)) /\ cursor (snd bad) = 3%nat.
Proof.
  split.
  - intros item w. unfold Dashboard.processItem, normalize_by_priority, bind,
      Date_now.
    rewrite resolve_by_priority_refines.
    destruct (resolve_by_priority _ w) as [p w1].
    rewrite resolve_by_priority_refines.
    destruct (resolve_by_priority _ w1) as [n w2].
    rewrite resolve_by_priority_refines.
    reflexivity.
  - repeat split.
Qed.

(* ================================================================== *)
(** ** The real-time list and the rendered feed *)

Lemma slice_20_length {A : Type} (l : list A) :
  (List.length (slice (-20) l) <= 20)%nat.
Proof.
  change (-20) with (- Z.of_nat 20). rewrite slice_neg_length; lia.
Qed.

Lemma Dashboard_processResponse_length (response : RtBody) (w : World)
    (ys : list FeedEntry) :
  fst (Dashboard.processResponse response w) = Resolved ys ->
  (List.length ys <= 20)%nat.
Proof.
  assert (Hmock : forall w',
             fst (bind Dashboard.generateMockRealtimeData
                       (fun mock => ret (Resolved mock)) w') = Resolved ys ->
             (List.length ys <= 20)%nat).
  { intros w'. unfold bind.
    assert (H6 := Dashboard_generateMockRealtimeData_length w').
    destruct (Dashboard.generateMockRealtimeData w') as [mock w1].
    cbn [fst ret]. intros H; inversion H; subst. simpl in H6. lia. }
  destruct response as [[data| |]|items|]; cbn [Dashboard.processResponse];
    try apply Hmock;
    intros H; apply mapItems_length in H; rewrite H; apply slice_20_length.
Qed.

Lemma Dashboard_fetchRealtime_bound (result : Outcome RtBody)
    (cancelled : bool) (realTimeData : list FeedEntry) (w : World) :
  (List.length realTimeData <= 20)%nat ->
  (List.length (fst (Dashboard.fetchRealtime result cancelled realTimeData w))
   <= 20)%nat.
Proof.
  intros Hst. unfold Dashboard.fetchRealtime, bind.
  assert (Hmock : forall w',
             (List.length (fst (Dashboard.generateMockRealtimeData w')) <= 20)%nat)
    by (intros w'; rewrite Dashboard_generateMockRealtimeData_length; lia).
  destruct result as [response|error].
  - assert (H := Dashboard_processResponse_length response w).
    destruct (Dashboard.processResponse response w) as [[ys|e] w1];
      destruct cancelled; cbn [negb fst ret]; auto.
  - cbn [ret]. destruct cancelled; cbn [negb fst ret]; auto.
Qed.

Lemma LegacyDashboard_processResponse_length (rt : RtBody) (w : World)
    (ys : list FeedEntry) :
  fst (LegacyDashboard.processResponse rt w) = Resolved ys ->
  (List.length ys <= 20)%nat.
Proof.
  destruct rt as [[arr| |]|items|]; cbn [LegacyDashboard.processResponse];
    try discriminate;
    intros H; apply mapItems_length in H; rewrite H; apply slice_20_length.
Qed.

Lemma LegacyDashboard_fetchRealtime_bound (result : Outcome RtBody)
    (cancelled : bool) (realTimeData : list FeedEntry) (w : World) :
  (List.length realTimeData <= 20)%nat ->
  (List.length
     (fst (LegacyDashboard.fetchRealtime result cancelled realTimeData w))
   <= 20)%nat.
Proof.
  intros Hst. unfold LegacyDashboard.fetchRealtime, bind.
  assert (Hcatch : forall w',
             (List.length
                (fst (let (s, w2) := LegacyDashboard.newSentiment w' in
                      (if negb cancelled
                       then ret (slice (-19) realTimeData ++ [s])
                       else ret realTimeData) w2)) <= 20)%nat).
  { intros w'. destruct (LegacyDashboard.newSentiment w') as [s w2].
    destruct cancelled; cbn [negb fst ret]; [assumption|].
    rewrite length_app. change (-19) with (- Z.of_nat 19).
    rewrite slice_neg_length by lia. cbn [List.length]. lia. }
  destruct result as [rt|e].
  - assert (H := LegacyDashboard_processResponse_length rt w).
    destruct (LegacyDashboard.processResponse rt w) as [[ys|e] w1].
    + destruct cancelled; cbn [negb fst ret]; auto.
    + apply Hcatch.
  - cbn [ret]. apply Hcatch.
Qed.

(** A bound that every completion keeps is kept by every sequence. *)
Lemma run_bound (fetchRealtime : Polling.Fetch) (n : nat) :
  (forall result cancelled st w,
      (List.length st <= n)%nat ->
      (List.length (fst (fetchRealtime result cancelled st w)) <= n)%nat) ->
  forall ticks st w,
    (List.length st <= n)%nat ->
    (List.length (fst (Polling.run fetchRealtime ticks st w)) <= n)%nat.
Proof.
  intros Hstep ticks; induction ticks as [|t rest IH]; intros st w Hst.
  - exact Hst.
  - cbn [Polling.run]. unfold bind, Polling.setClock.
    match goal with
    | |- context [fetchRealtime ?r ?c ?s ?w'] =>
        assert (H := Hstep r c s w' Hst);
        destruct (fetchRealtime r c s w') as [next w1]
    end.
    apply IH. exact H.
Qed.

Lemma renderedFeed_is_last_six (l : list FeedEntry) :
  renderedFeed l = rev (skipn (List.length l - 6) l).
Proof.
  unfold renderedFeed, reverse. change (-6) with (- Z.of_nat 6).
  rewrite slice_neg_skipn by lia. reflexivity.
Qed.

Lemma renderedFeed_length (l : list FeedEntry) :
  List.length (renderedFeed l) = Nat.min 6 (List.length l).
Proof.
  unfold renderedFeed, reverse. rewrite length_rev.
  change (-6) with (- Z.of_nat 6). apply slice_neg_length. lia.
Qed.

Lemma renderedFeed_newest_first (l : list FeedEntry) (e : FeedEntry) :
  hd_error (renderedFeed (l ++ [e])) = Some e.
Proof.
  rewrite renderedFeed_is_last_six, length_app. cbn [List.length].
  rewrite skipn_app.
  replace (List.length l + 1 - 6 - List.length l)%nat with O by lia.
  cbn [skipn]. rewrite rev_app_distr. reflexivity.
Qed.

(** X19.  Whatever happens at each completion of [fetchRealtime]
    (a mapped response, the mock fallback, a locally simulated record,
    or a cancelled run that changes nothing), the real-time list of
    either dashboard holds at most 20 entries; and the feed renders the
    last entries of the list, at most 6 of them, in reverse order of the
    list, so that the entry at the end of the list comes first. *)
Theorem realTimeData_bounded_feed_last_six :
  forall (ticks : list Polling.Tick) (w : World),
    (List.length (fst (Polling.run Dashboard.fetchRealtime ticks
                         Polling.initialRealTimeData w)) <= 20)%nat /\
    (List.length (fst (Polling.run LegacyDashboard.fetchRealtime ticks
                         Polling.initialRealTimeData w)) <= 20)%nat /\
    (forall l : list FeedEntry,
        renderedFeed l = rev (skipn (List.length l - 6) l) /\
        (List.length (renderedFeed l) <= 6)%nat) /\
    (forall (l : list FeedEntry) (e : FeedEntry),
        hd_error (renderedFeed (l ++ [e])) = Some e).
Proof.
  intros ticks w. split; [|split; [|split]].
  - apply run_bound; [apply Dashboard_fetchRealtime_bound | simpl; lia].
  - apply run_bound; [apply LegacyDashboard_fetchRealtime_bound | simpl; lia].
  - intros l. split; [apply renderedFeed_is_last_six|].
    rewrite renderedFeed_length. lia.
  - apply renderedFeed_newest_first.
Qed.

(* ================================================================== *)
(** ** The historical operation *)

Lemma hist_point_record (baseDate i : Z) (w0 w : World) :
  unit_draws w0 -> later w0 w ->
  later w0 (snd (Api.hist_point baseDate i w)) /\
  hist_record baseDate i (fst (Api.hist_point baseDate i w)).
Proof.
  intros U L. rewrite hist_point_run. cbn [fst snd]. split.
  - eapply later_trans; [exact L | apply later_tick].
  - assert (U' := later_unit_draws _ _ L U).
    unfold hist_record;
      cbn [hi_date hi_positive hi_negative hi_neutral hi_total].
    split; [reflexivity|].
    split; [apply (floor_between _ 30 60); try apply U'; reflexivity|].
    split; [apply (floor_between _ 15 5); try apply U'; reflexivity|].
    split; [apply (floor_between _ 15 5); try apply U'; reflexivity|].
    apply (floor_between _ 1000 1000); try apply U'; reflexivity.
Qed.

Lemma generateMockHistoricalData_records (days : option Z) (w : World) :
  unit_draws w ->
  Forall2 (hist_record (clock w))
          (countdown (Z.to_nat (Api.default 7 days)))
          (fst (Api.generateMockHistoricalData days w)).
Proof.
  intros U. unfold Api.generateMockHistoricalData, bind, Date_now.
  rewrite hist_loop_mapM.
  apply (mapM_Forall2 (Api.hist_point (clock w)) (hist_record (clock w)) w).
  - intros x w1 L. apply hist_point_record; assumption.
  - apply later_refl.
Qed.

(** The client's fallback history: [days] buckets, oldest first, one per
    day up to the day before the call, each with a total of at least 1000
    (so no bucket of the fallback is empty). *)
Lemma getHistoricalApi_fallback (days : option Z) (source : option string)
    (e : Exn) (w : World) :
  unit_draws w ->
  exists mock,
    fst (Api.getHistoricalApi days source (Rejected e) w)
    = Resolved (HistObject false (Some mock)) /\
    List.length mock = Z.to_nat (Api.default 7 days) /\
    ordered Z.lt DateString (map hi_date mock) /\
    Forall (fun b => between 1000 1999 (hi_total b)) mock.
Proof.
  intros U. unfold Api.getHistoricalApi, bind.
  assert (Hl := generateMockHistoricalData_length (Some (Api.default 7 days)) w).
  assert (Hr := generateMockHistoricalData_records (Some (Api.default 7 days)) w U).
  destruct (Api.generateMockHistoricalData _ w) as [mock w1].
  cbn [fst Api.default] in *.
  exists mock. split; [reflexivity|]. split; [exact Hl|]. split.
  - exists (map (fun i => clock w - i * day)
                (countdown (Z.to_nat (Api.default 7 days)))).
    split.
    + unfold prints. rewrite map_map.
      apply Forall2_map_eq with
        (h := fun i => Some (DateString (clock w - i * day))).
      eapply Forall2_impl; [|exact Hr].
      intros x y [H _]; exact H.
    + apply countdown_ascending. reflexivity.
  - eapply Forall2_Forall_r; [|exact Hr].
    intros x y (_ & _ & _ & _ & H); exact H.
Qed.

Section AggregatorFacts.
Import Backend.

Variable weight : SentimentRecord -> Q.
Variable store : list SentimentRecord.
Variable f : SourceFilter.

Lemma bucket_of_count (d : Z) (held : Q * Q * Q) :
  total_count (bucket_of weight store f d held)
  = Z.of_nat (List.length (filter (matches f d) store)) /\
  period_start (bucket_of weight store f d held) = d.
Proof.
  unfold bucket_of. destruct (filter (matches f d) store);
    destruct held as [[p n] u]; split; reflexivity.
Qed.

Lemma bucket_of_hold (d : Z) (held : Q * Q * Q) :
  total_count (bucket_of weight store f d held) = 0 ->
  percentages (bucket_of weight store f d held) = held.
Proof.
  unfold bucket_of. destruct (filter (matches f d) store) as [|r rs].
  - destruct held as [[p n] u]. reflexivity.
  - destruct held as [[p n] u]. cbn [total_count List.length]. lia.
Qed.

Lemma buckets_from_length (d : Z) (n : nat) (held : Q * Q * Q) :
  List.length (buckets_from weight store f d n held) = n.
Proof.
  revert d held; induction n as [|n IH]; intros d held; simpl;
    [reflexivity | now rewrite IH].
Qed.

Lemma buckets_from_days (d : Z) (n : nat) (held : Q * Q * Q) :
  map period_start (buckets_from weight store f d n held) = countup d n.
Proof.
  revert d held; induction n as [|n IH]; intros d held;
    cbn [buckets_from map countup]; [reflexivity|].
  rewrite IH. f_equal. apply bucket_of_count.
Qed.

Lemma buckets_from_counts (d : Z) (n : nat) (held : Q * Q * Q) :
  Forall (fun b =>
            total_count b
            = Z.of_nat (List.length (filter (matches f (period_start b)) store)))
         (buckets_from weight store f d n held).
Proof.
  revert d held; induction n as [|n IH]; intros d held;
    cbn [buckets_from]; constructor; [|apply IH].
  destruct (bucket_of_count d held) as [-> ->]. reflexivity.
Qed.

(** A run of empty buckets repeats what was held before it. *)
Lemma buckets_from_run_holds (mid : list Bucket) :
  forall (d : Z) (n : nat) (held : Q * Q * Q) (e : Bucket)
         (post : list Bucket),
    buckets_from weight store f d n held = mid ++ e :: post ->
    Forall (fun b => total_count b = 0) mid ->
    total_count e = 0 ->
    percentages e = held.
Proof.
  induction mid as [|m mid IH]; intros d n held e post Heq Hmid He;
    destruct n as [|n]; try discriminate Heq;
    cbn [buckets_from app] in Heq; injection Heq as Hb Hrest.
  - subst e. now apply bucket_of_hold.
  - inversion Hmid as [|x l Hm Hmid']; subst x l.
    subst m. rewrite (bucket_of_hold d held Hm) in Hrest.
    eapply IH; eassumption.
Qed.

Lemma buckets_from_hold (pre : list Bucket) :
  forall (d : Z) (n : nat) (held : Q * Q * Q) (b : Bucket)
         (mid : list Bucket) (e : Bucket) (post : list Bucket),
    buckets_from weight store f d n held = pre ++ b :: mid ++ e :: post ->
    Forall (fun x => total_count x = 0) mid ->
    total_count e = 0 ->
    percentages e = percentages b.
Proof.
  induction pre as [|p pre IH]; intros d n held b mid e post Heq Hmid He;
    destruct n as [|n]; try discriminate Heq;
    cbn [buckets_from app] in Heq; injection Heq as Hb Hrest.
  - subst b. eapply buckets_from_run_holds; eassumption.
  - eapply IH; eassumption.
Qed.

End AggregatorFacts.

Lemma countup_sorted (i : Z) (n : nat) : StronglySorted Z.lt (countup i n).
Proof.
  assert (H := countup_ascending 0 1 i n eq_refl).
  rewrite (map_ext _ (fun k => k)) in H by (intros; lia).
  now rewrite map_id in H.
Qed.

(** C6.  The historical operation returns exactly [days] buckets, oldest
    first, each with a count that is not negative, and a bucket without
    matching records repeats the percentages of the previous non-empty
    bucket.  For the aggregator (modelled from the spec): the buckets are
    those of the [days] consecutive days that end today, each counts its
    matching records, and a bucket with count 0 that follows a bucket [b]
    after a run of empty buckets has the percentages of [b].  For the
    client's fallback: [days] buckets, oldest first, each with a total
    between 1000 and 1999, so that none is empty. *)
Theorem historical_buckets :
  forall (weight : Backend.SentimentRecord -> Q)
         (store : list Backend.SentimentRecord) (today : Z)
         (initial : Q * Q * Q) (days : Z) (filter_ : Backend.SourceFilter),
    let buckets :=
      Backend.historical weight store today initial days filter_ in
    List.length buckets = Z.to_nat days /\
    map Backend.period_start buckets
    = countup (today - days + 1) (Z.to_nat days) /\
    StronglySorted Z.lt (map Backend.period_start buckets) /\
    Forall (fun b =>
              0 <= Backend.total_count b /\
              Backend.total_count b
              = Z.of_nat (List.length
                            (filter (Backend.matches filter_
                                       (Backend.period_start b)) store)))
           buckets /\
    (forall pre b mid e post,
        buckets = pre ++ b :: mid ++ e :: post ->
        Forall (fun x => Backend.total_count x = 0) mid ->
        Backend.total_count e = 0 ->
        Backend.percentages e = Backend.percentages b) /\
    (forall (source : option string) (error : Exn) (w : World),
        unit_draws w ->
        exists mock,
          fst (Api.getHistoricalApi (Some days) source (Rejected error) w)
          = Resolved (HistObject false (Some mock)) /\
          List.length mock = Z.to_nat days /\
          ordered Z.lt DateString (map hi_date mock) /\
          Forall (fun b => between 1000 1999 (hi_total b)) mock).
Proof.
  intros weight store today initial days filter_ buckets.
  unfold buckets, Backend.historical.
  split; [apply buckets_from_length|].
  split; [apply buckets_from_days|].
  split; [rewrite buckets_from_days; apply countup_sorted|].
  split.
  - eapply Forall_impl; [|apply buckets_from_counts].
    intros b Hb; cbn beta in *. split; [rewrite Hb; lia | exact Hb].
  - split.
    + intros pre b mid e post. apply buckets_from_hold.
    + intros source error w U.
      apply (getHistoricalApi_fallback (Some days) source error w U).
Qed.

(** The same for three days of which only the first has a record: the
    second and the third bucket repeat the percentages of the first. *)
Lemma historical_buckets_witness :
  let buckets :=
    Backend.historical (fun _ => 1%Q) oneRecordStore 3 (0, 0, 0)%Q 3 Backend.all in
  exists b m e,
    buckets = [b; m; e] /\
    Backend.total_count b = 1 /\ Backend.total_count e = 0 /\
    Backend.percentages e = Backend.percentages b.
Proof.
  intros buckets.
  destruct (historical_buckets (fun _ => 1%Q) oneRecordStore 3 (0, 0, 0)%Q 3
              Backend.all) as (_ & _ & _ & _ & Hold & _).
  fold buckets in Hold.
  let v := eval vm_compute in buckets in
  match v with
  | [?b; ?m; ?e] =>
      exists b, m, e; split; [reflexivity|]; split; [reflexivity|];
      split; [reflexivity|];
      apply (Hold [] b [m] e []); [reflexivity | | reflexivity]
  end.
  constructor; [reflexivity | constructor].
Defined.

(* ================================================================== *)
(** ** The forecast fallback chain *)

Section ForecastFacts.
Import Backend.

Variable sequence_model : list Q -> Z -> option (list Estimate).
Variable trend_model : list Q -> Z -> option (list Estimate).

Lemma live_path_needs_history (store : RecordStore) (today days : Z) :
  history_span_days store < MIN_HISTORY_DAYS ->
  live_path sequence_model trend_model store today days = None.
Proof.
  intros H. unfold live_path.
  destruct (MIN_HISTORY_DAYS <=? history_span_days store) eqn:E;
    [apply Z.leb_le in E; lia | reflexivity].
Qed.

Lemma latest_prediction_batch_covers (store : RecordStore) (days : Z)
    (batch : list PredictionPoint) :
  latest_prediction_batch store days = Some batch ->
  In batch (prediction_batches store) /\
  days <= Z.of_nat (List.length batch).
Proof.
  unfold latest_prediction_batch. intros H.
  apply find_some in H. destruct H as [Hin Hle].
  split; [exact Hin | now apply Z.leb_le].
Qed.

Lemma clamp_range (x lo hi : Q) :
  (lo <= hi)%Q -> (lo <= clamp x lo hi)%Q /\ (clamp x lo hi <= hi)%Q.
Proof.
  intros H. unfold clamp. split.
  - apply Q.le_max_l.
  - apply Q.max_lub; [exact H | apply Q.le_min_r].
Qed.

Lemma tag_well_formed (m : ModelSource) (p : PredictionPoint) :
  well_formed p -> well_formed (tag m p).
Proof. intros H. exact H. Qed.

Lemma synthetic_point_well_formed (policy : WalkPolicy) (today : Z)
    (i : nat) (p : Q) :
  (0 <= margin policy)%Q -> (0 <= p)%Q -> (p <= 100)%Q ->
  well_formed (synthetic_point policy today i p).
Proof.
  intros Hm H0 H100. unfold well_formed, synthetic_point.
  cbn [lower upper predicted pp_confidence].
  assert (Hc := clamp_range
                  (1 - (p + margin policy - (p - margin policy)) / 100)
                  0 1).
  destruct Hc as [Hc0 Hc1]; [lra|].
  repeat split; try assumption; lra.
Qed.

Lemma random_walk_length (policy : WalkPolicy) (n : nat) :
  forall (prev : Q) (w : World),
    List.length (fst (random_walk policy prev n w)) = n.
Proof.
  induction n as [|n IH]; intros prev w; [reflexivity|].
  cbn [random_walk]. unfold bind at 1. unfold walk_step, bind at 1.
  unfold Math_random at 1. cbn [ret]. unfold bind at 1.
  specialize (IH (clamp (prev + drift policy
                         + (draws w (cursor w) - (1 # 2)) * spread policy)
                        0 100)
                 {| clock := clock w; draws := draws w;
                    cursor := S (cursor w) |}).
  destruct (random_walk policy _ n _) as [rest w2].
  cbn [fst ret List.length] in *. now rewrite IH.
Qed.

Lemma random_walk_range (policy : WalkPolicy) (n : nat) :
  forall (prev : Q) (w : World),
    Forall (fun p => (0 <= p)%Q /\ (p <= 100)%Q)
           (fst (random_walk policy prev n w)).
Proof.
  induction n as [|n IH]; intros prev w; [constructor|].
  cbn [random_walk]. unfold bind at 1. unfold walk_step, bind at 1.
  unfold Math_random at 1. cbn [ret]. unfold bind at 1.
  specialize (IH (clamp (prev + drift policy
                         + (draws w (cursor w) - (1 # 2)) * spread policy)
                        0 100)
                 {| clock := clock w; draws := draws w;
                    cursor := S (cursor w) |}).
  destruct (random_walk policy _ n _) as [rest w2].
  cbn [fst ret] in *. constructor; [|exact IH].
  apply clamp_range. lra.
Qed.

Lemma random_walk_seeded (policy : WalkPolicy) (n : nat) (prev : Q)
    (w : World) :
  hd_error (fst (random_walk policy prev (S n) w))
  = Some (clamp (prev + drift policy
                 + (draws w (cursor w) - (1 # 2)) * spread policy) 0 100).
Proof.
  cbn [random_walk]. unfold bind at 1. unfold walk_step, bind at 1.
  unfold Math_random at 1. cbn [ret]. unfold bind at 1.
  destruct (random_walk policy _ n _) as [rest w2]. reflexivity.
Qed.

Lemma synthetic_points_of_walk (policy : WalkPolicy) (today : Z)
    (walk : list Q) :
  (0 <= margin policy)%Q ->
  Forall (fun p => (0 <= p)%Q /\ (p <= 100)%Q) walk ->
  forall k,
    let points := map (fun '(i, p) => synthetic_point policy today i p)
                      (combine (seq k (List.length walk)) walk) in
    List.length points = List.length walk /\
    Forall (fun p => model_source p = synthetic) points /\
    map date points
    = map (fun i => today + Z.of_nat i) (seq k (List.length walk)) /\
    Forall well_formed points /\
    option_map predicted (hd_error points) = hd_error walk.
Proof.
  intros Hm Hr. induction Hr as [|p walk [H0 H100] Hr IH]; intros k.
  - cbn. repeat split; constructor.
  - cbn zeta in *. cbn [List.length seq combine map hd_error option_map].
    destruct (IH (S k)) as (H1 & H2 & H3 & H4 & _).
    split; [now rewrite H1|].
    split; [constructor; [reflexivity | exact H2]|].
    split; [now rewrite H3|].
    split; [|reflexivity].
    constructor; [|exact H4].
    now apply synthetic_point_well_formed.
Qed.

Lemma synthesize_points (policy : WalkPolicy) (store : RecordStore)
    (today days : Z) (w : World) :
  (0 <= margin policy)%Q ->
  let points := fst (synthesize policy store today days w) in
  List.length points = Z.to_nat days /\
  Forall (fun p => model_source p = synthetic) points /\
  map date points
  = map (fun i => today + Z.of_nat i) (seq 1 (Z.to_nat days)) /\
  Forall well_formed points /\
  option_map predicted (hd_error points)
  = hd_error (fst (random_walk policy (last_known policy store)
                     (Z.to_nat days) w)).
Proof.
  intros Hm. unfold synthesize, bind.
  assert (Hl := random_walk_length policy (Z.to_nat days)
                  (last_known policy store) w).
  assert (Hr := random_walk_range policy (Z.to_nat days)
                  (last_known policy store) w).
  destruct (random_walk policy _ (Z.to_nat days) w) as [walk w1].
  cbn [fst ret] in *.
  destruct (synthetic_points_of_walk policy today walk Hm Hr 1%nat)
    as (H1 & H2 & H3 & H4 & H5).
  rewrite Hl in *. repeat split; assumption.
Qed.

End ForecastFacts.

(** C8.  When the live path cannot run because the history spans fewer
    than 45 days, the forecast (modelled from the spec) returns the most
    recent stored batch that covers the horizon, point for point, every
    point tagged [stored]; when there is no such batch it returns [days]
    points of a random walk that starts from the last known historical
    percentage, dated from the day after the request, every point tagged
    [synthetic].  For a horizon of at least one day, a store of
    well-formed points and a band that is not negative, the series is in
    either case well formed (every point has [lower <= predicted <=
    upper], [predicted] in [0,100] and a confidence in [0,1]) and not
    empty. *)
Theorem forecast_fallback_chain :
  forall (sequence_model trend_model : list Q -> Z -> option (list Backend.Estimate))
         (policy : Backend.WalkPolicy)
         (store : Backend.RecordStore) (today days : Z) (w : World),
    1 <= days ->
    Backend.history_span_days store < Backend.MIN_HISTORY_DAYS ->
    store_well_formed store ->
    (0 <= Backend.margin policy)%Q ->
    let points :=
      fst (Backend.forecast sequence_model trend_model policy store
             today days w) in
    (forall batch,
        Backend.latest_prediction_batch store days = Some batch ->
        points = map (Backend.tag Backend.stored) batch /\
        Forall (fun p => Backend.model_source p = Backend.stored) points /\
        days <= Z.of_nat (List.length points)) /\
    (Backend.latest_prediction_batch store days = None ->
        Forall (fun p => Backend.model_source p = Backend.synthetic) points /\
        Z.of_nat (List.length points) = days /\
        map Backend.date points
        = map (fun i => today + Z.of_nat i) (seq 1 (Z.to_nat days)) /\
        option_map Backend.predicted (hd_error points)
        = Some (Backend.clamp
                  (last (Backend.positive_series store)
                        (Backend.default_seed policy)
                   + Backend.drift policy
                   + (draws w (cursor w) - (1 # 2)) * Backend.spread policy)
                  0 100)) /\
    Forall Backend.well_formed points /\
    points <> [].
Proof.
  intros sequence_model trend_model policy store today days w
    Hd Hspan Hstore Hm points.
  unfold points, Backend.forecast.
  rewrite (live_path_needs_history _ _ store today days Hspan).
  destruct (Backend.latest_prediction_batch store days) as [batch|] eqn:E.
  - apply latest_prediction_batch_covers in E. destruct E as [Hin Hcov].
    cbn [fst ret]. split; [|split; [|split]].
    + intros b Hb. injection Hb as <-. split; [reflexivity|].
      split; [|now rewrite length_map].
      apply Forall_forall. intros p Hp. apply in_map_iff in Hp.
      destruct Hp as [q [<- _]]. reflexivity.
    + discriminate.
    + unfold store_well_formed in Hstore.
      rewrite Forall_forall in Hstore. specialize (Hstore batch Hin).
      rewrite Forall_forall in Hstore.
      apply Forall_forall. intros p Hp. apply in_map_iff in Hp.
      destruct Hp as [q [<- Hq]].
      apply tag_well_formed. now apply Hstore.
    + destruct batch; [simpl in Hcov; lia | discriminate].
  - destruct (synthesize_points policy store today days w Hm)
      as (Hl & Ht & Hdates & Hwf & Hhd).
    split; [|split; [|split]].
    + discriminate.
    + intros _. split; [exact Ht|]. split; [rewrite Hl; lia|].
      split; [exact Hdates|]. rewrite Hhd.
      destruct (Z.to_nat days) as [|n] eqn:En; [lia|].
      apply random_walk_seeded.
    + exact Hwf.
    + intros Hnil. rewrite Hnil in Hl. simpl in Hl. lia.
Qed.

Lemma fiveStored_well_formed : store_well_formed (youngStore [fiveStored]).
Proof.
  unfold store_well_formed, youngStore, fiveStored, storedPoint.
  cbn [Backend.prediction_batches].
  repeat constructor; cbn; lra.
Defined.

(** The same for ten days of history that end at 61 per cent, both
    capabilities down, a horizon of five days and a random source that
    returns one half, with a stored batch of five points and without
    one, where the walk starts from 61. *)
Lemma forecast_fallback_chain_witness :
  (1 <= 5 /\ Backend.history_span_days (youngStore [fiveStored]) < 45 /\
   store_well_formed (youngStore [fiveStored]) /\
   (0 <= Backend.margin mildWalk)%Q) /\
  fst (Backend.forecast noModel noModel mildWalk (youngStore [fiveStored])
         10 5 (constWorld 0 (1 # 2)))
  = map (Backend.tag Backend.stored) fiveStored /\
  Forall (fun p => Backend.model_source p = Backend.synthetic)
         (fst (Backend.forecast noModel noModel mildWalk (youngStore [])
                 10 5 (constWorld 0 (1 # 2)))) /\
  Forall Backend.well_formed
         (fst (Backend.forecast noModel noModel mildWalk (youngStore [])
                 10 5 (constWorld 0 (1 # 2)))) /\
  option_map Backend.predicted
    (hd_error (fst (Backend.forecast noModel noModel mildWalk (youngStore [])
                      10 5 (constWorld 0 (1 # 2)))))
  = Some (Backend.clamp (61 + (1 # 2) + ((1 # 2) - (1 # 2)) * 4) 0 100).
Proof.
  split; [split; [lia | split; [reflexivity |
          split; [exact fiveStored_well_formed | cbn; lra]]]|].
  split; [|split; [|split]].
  - apply (forecast_fallback_chain noModel noModel mildWalk
             (youngStore [fiveStored]) 10 5 (constWorld 0 (1 # 2)));
      [lia | reflexivity | exact fiveStored_well_formed | cbn; lra
      | reflexivity].
  - apply (forecast_fallback_chain noModel noModel mildWalk
             (youngStore []) 10 5 (constWorld 0 (1 # 2)));
      [lia | reflexivity | constructor | cbn; lra | reflexivity].
  - apply (forecast_fallback_chain noModel noModel mildWalk
             (youngStore []) 10 5 (constWorld 0 (1 # 2)));
      [lia | reflexivity | constructor | cbn; lra].
  - apply (forecast_fallback_chain noModel noModel mildWalk
             (youngStore []) 10 5 (constWorld 0 (1 # 2)));
      [lia | reflexivity | constructor | cbn; lra | reflexivity].
Defined.

(* ================================================================== *)
(** ** More of the code: arrays, draws and the mapping of raw items *)

Lemma tick_tick (a b : nat) (w : World) : tick a (tick b w) = tick (b + a) w.
Proof. unfold tick; cbn [clock draws cursor]. f_equal. lia. Qed.

Lemma tick_zero (w : World) : tick 0 w = w.
Proof. destruct w; reflexivity. Qed.

Lemma slice_map {A B : Type} (g : A -> B) (k : Z) (l : list A) :
  slice k (map g l) = map g (slice k l).
Proof. unfold slice. rewrite length_map. apply skipn_map. Qed.

Lemma slice_neg_all {A : Type} (n : nat) (l : list A) :
  (0 < n)%nat -> (List.length l <= n)%nat -> slice (- Z.of_nat n) l = l.
Proof.
  intros Hn Hl. rewrite slice_neg_skipn by assumption.
  replace (List.length l - n)%nat with O by lia. reflexivity.
Qed.

Lemma slice_neg_app {A : Type} (n : nat) (l1 l2 : list A) :
  (0 < n)%nat -> (n <= List.length l2)%nat ->
  slice (- Z.of_nat n) (l1 ++ l2) = slice (- Z.of_nat n) l2.
Proof.
  intros Hn Hl. rewrite !slice_neg_skipn by assumption.
  rewrite length_app, skipn_app.
  replace (List.length l1 + List.length l2 - n - List.length l1)%nat
    with (List.length l2 - n)%nat by lia.
  rewrite skipn_all2 by lia. reflexivity.
Qed.

Lemma slice_suffix {A : Type} (k : Z) (l : list A) :
  exists pre, l = pre ++ slice k l.
Proof.
  unfold slice. eexists. symmetry. apply firstn_skipn.
Qed.

Lemma Forall_slice {A : Type} (P : A -> Prop) (k : Z) (l : list A) :
  Forall P l -> Forall P (slice k l).
Proof.
  intros H. destruct (slice_suffix k l) as [pre Hpre].
  rewrite Hpre in H. apply Forall_app in H. tauto.
Qed.

(** A map over elements none of which is [null] never throws. *)
Lemma mapItems_resolves {A B : Type} (f : A -> M B) (l : list A) (w : World) :
  exists ys, fst (mapItems f (map Some l) w) = Resolved ys.
Proof.
  revert w; induction l as [|x xs IH]; intros w; cbn [map mapItems].
  - now eexists.
  - unfold bind. destruct (f x w) as [y w1].
    destruct (IH w1) as [ys Hys].
    destruct (mapItems f (map Some xs) w1) as [r w2]; cbn [fst] in *.
    subst r. now eexists.
Qed.

(** A [null] anywhere in the array makes the map throw. *)
Lemma mapItems_null {A B : Type} (f : A -> M B) (arr : list (option A))
    (w : World) :
  In None arr -> exists e, fst (mapItems f arr w) = Rejected e.
Proof.
  revert w; induction arr as [|[x|] rest IH]; intros w Hin; cbn [mapItems].
  - destruct Hin.
  - destruct Hin as [H|H]; [discriminate H|].
    unfold bind. destruct (f x w) as [y w1].
    destruct (IH w1 H) as [e He].
    destruct (mapItems f rest w1) as [r w2]; cbn [fst] in *.
    subst r. now eexists.
  - now eexists.
Qed.

(** A map whose function draws nothing on the elements it meets is a
    plain map. *)
Lemma mapItems_pure {A B : Type} (f : A -> M B) (g : A -> B) (l : list A)
    (w : World) :
  (forall x, In x l -> f x w = (g x, w)) ->
  mapItems f (map Some l) w = (Resolved (map g l), w).
Proof.
  induction l as [|x xs IH]; intros H; cbn [map mapItems]; [reflexivity|].
  unfold bind. rewrite (H x (or_introl eq_refl)).
  rewrite IH by (intros y Hy; apply H; now right). reflexivity.
Qed.

(** Two functions that agree on the elements give the same map. *)
Lemma mapItems_ext {A B : Type} (f g : A -> M B) (l : list A) (w : World) :
  (forall x w', In x l -> f x w' = g x w') ->
  mapItems f (map Some l) w = mapItems g (map Some l) w.
Proof.
  revert w; induction l as [|x xs IH]; intros w H; cbn [map mapItems];
    [reflexivity|].
  unfold bind. rewrite (H x w (or_introl eq_refl)).
  destruct (g x w) as [y w1].
  rewrite IH by (intros z w' Hz; apply H; now right). reflexivity.
Qed.

Lemma resolve_run (full abbr : jsval) (scores : option Scores)
    (field : Scores -> jsval) (w : World) :
  Dashboard.resolve full abbr scores field w
  = match first_present [full; abbr; Dashboard.nested scores field] with
    | Some v => (v, w)
    | None => (Num (draws w (cursor w) * 100), tick 1 w)
    end.
Proof.
  rewrite resolve_by_priority_refines. unfold resolve_by_priority.
  destruct (first_present _); reflexivity.
Qed.

Lemma Dashboard_processItem_draws (item : Item) (w : World) :
  snd (Dashboard.processItem item w) = tick (missing item) w.
Proof.
  unfold Dashboard.processItem, missing, unresolved, bind, Date_now.
  rewrite resolve_run.
  destruct (first_present [it_positive item; _; _]);
    rewrite resolve_run;
    destruct (first_present [it_negative item; _; _]);
    rewrite resolve_run;
    destruct (first_present [it_neutral item; _; _]);
    destruct w; reflexivity.
Qed.

Lemma Dashboard_processItem_full (item : Item) (w : World) :
  fullItem item ->
  Dashboard.processItem item w = (fullEntry (clock w) item, w).
Proof.
  intros (Hp & Hn & Hu).
  unfold Dashboard.processItem, Dashboard.resolve, coalesceM, coalesce, bind,
    Date_now, fullEntry.
  rewrite Hp, Hn, Hu. cbn. rewrite Hp, Hn, Hu. reflexivity.
Qed.

Lemma LegacyDashboard_processItem_full (item : Item) (w : World) :
  fullItem item ->
  LegacyDashboard.processItem item w = (fullEntry (clock w) item, w).
Proof.
  intros (Hp & Hn & Hu).
  unfold LegacyDashboard.processItem, LegacyDashboard.resolve, coalesceM,
    coalesce, bind, Date_now, fullEntry.
  rewrite Hp, Hn, Hu. cbn. rewrite Hp, Hn, Hu. reflexivity.
Qed.

Lemma mapItems_processItem_draws (l : list Item) (w : World) :
  snd (mapItems Dashboard.processItem (map Some l) w)
  = tick (total (map missing l)) w.
Proof.
  revert w; induction l as [|x xs IH]; intros w; cbn [map mapItems total fold_right].
  - symmetry. apply tick_zero.
  - unfold bind. assert (Hx := Dashboard_processItem_draws x w).
    destruct (Dashboard.processItem x w) as [y w1]; cbn [snd] in Hx; subst w1.
    specialize (IH (tick (missing x) w)).
    destruct (mapItems Dashboard.processItem (map Some xs) _) as [[ys|e] w2];
      cbn [snd ret] in *; subst w2; rewrite tick_tick; reflexivity.
Qed.

(** X1.  Raw items that carry the three full-name fields are mapped
    verbatim by both dashboards: the state becomes the last 20 items with
    their own scores and timestamps, and [Math.random] is not called. *)
Theorem full_items_mapped_verbatim :
  forall (items : list Item) (st : list FeedEntry) (w : World),
    Forall fullItem (slice (-20) items) ->
    Dashboard.fetchRealtime
      (Resolved (RtObject (RtDataArray (map Some items)))) false st w
    = (map (fullEntry (clock w)) (slice (-20) items), w) /\
    LegacyDashboard.fetchRealtime
      (Resolved (RtObject (RtDataArray (map Some items)))) false st w
    = (map (fullEntry (clock w)) (slice (-20) items), w).
Proof.
  intros items st w Hfull. rewrite Forall_forall in Hfull.
  split.
  - unfold Dashboard.fetchRealtime, Dashboard.processResponse, bind;
      cbn beta iota.
    rewrite slice_map.
    rewrite (mapItems_pure _ (fullEntry (clock w)));
      [reflexivity|].
    intros x Hx. apply Dashboard_processItem_full. now apply Hfull.
  - unfold LegacyDashboard.fetchRealtime, LegacyDashboard.processResponse,
      bind; cbn beta iota. rewrite slice_map.
    rewrite (mapItems_pure _ (fullEntry (clock w)));
      [reflexivity|].
    intros x Hx. apply LegacyDashboard_processItem_full. now apply Hfull.
Qed.

(** The same for one item with scores 70, 20 and 10. *)
Lemma full_items_mapped_verbatim_witness :
  Forall fullItem (slice (-20) [fullOf "10:15:00 AM" 70 20 10]) /\
  fst (Dashboard.fetchRealtime
         (Resolved (RtObject (RtDataArray
            (map Some [fullOf "10:15:00 AM" 70 20 10])))) false []
         (constWorld 0 0))
  = [ {| fe_timestamp := Literal "10:15:00 AM"; fe_positive := Num 70;
         fe_negative := Num 20; fe_neutral := Num 10 |} ].
Proof.
  assert (H : Forall fullItem (slice (-20) [fullOf "10:15:00 AM" 70 20 10])).
  { constructor; [repeat split | constructor]. }
  split; [exact H|].
  rewrite (proj1 (full_items_mapped_verbatim
                    [fullOf "10:15:00 AM" 70 20 10] [] (constWorld 0 0) H)).
  reflexivity.
Defined.

(** X2.  The dashboard with the nested-scores lookup calls [Math.random]
    exactly once for every field, of the last 20 items, that none of the
    three sources provides -- and never otherwise, cancelled or not. *)
Theorem placeholders_drawn_once_per_missing_field :
  forall (items : list Item) (cancelled : bool) (st : list FeedEntry)
         (w : World),
    snd (Dashboard.fetchRealtime
           (Resolved (RtObject (RtDataArray (map Some items)))) cancelled st w)
    = tick (total (map missing (slice (-20) items))) w.
Proof.
  intros items cancelled st w.
  unfold Dashboard.fetchRealtime, Dashboard.processResponse, bind;
    cbn beta iota.
  rewrite slice_map.
  assert (Hd := mapItems_processItem_draws (slice (-20) items) w).
  destruct (mapItems_resolves Dashboard.processItem (slice (-20) items) w)
    as [ys Hys].
  destruct (mapItems Dashboard.processItem _ w) as [r w1]; cbn [fst snd] in *.
  subst r w1. destruct cancelled; reflexivity.
Qed.

Lemma processItem_agree (item : Item) (w : World) :
  noNested item ->
  Dashboard.processItem item w = LegacyDashboard.processItem item w.
Proof.
  intros (Hp & Hn & Hu).
  unfold Dashboard.processItem, LegacyDashboard.processItem,
    Dashboard.resolve, LegacyDashboard.resolve.
  unfold coalesceM at 2 4 6. rewrite Hp, Hn, Hu. reflexivity.
Qed.

(** X3.  On a response whose last 20 items have nothing usable in a
    nested [scores] object, the two dashboards do the same: same new
    state, same draws. *)
Theorem dashboards_agree_without_nested_scores :
  forall (items : list Item) (cancelled : bool) (st : list FeedEntry)
         (w : World),
    Forall noNested (slice (-20) items) ->
    Dashboard.fetchRealtime
      (Resolved (RtObject (RtDataArray (map Some items)))) cancelled st w
    = LegacyDashboard.fetchRealtime
        (Resolved (RtObject (RtDataArray (map Some items)))) cancelled st w.
Proof.
  intros items cancelled st w Hno. rewrite Forall_forall in Hno.
  unfold Dashboard.fetchRealtime, Dashboard.processResponse,
    LegacyDashboard.fetchRealtime, LegacyDashboard.processResponse, bind;
    cbn beta iota.
  rewrite slice_map.
  rewrite (mapItems_ext Dashboard.processItem LegacyDashboard.processItem)
    by (intros x w' Hx; apply processItem_agree; now apply Hno).
  destruct (mapItems_resolves LegacyDashboard.processItem
              (slice (-20) items) w) as [ys Hys].
  destruct (mapItems LegacyDashboard.processItem _ w) as [r w1];
    cbn [fst] in Hys; subst r. reflexivity.
Qed.

(** The same for an item without [scores] and without [neutral]: both
    dashboards draw the same placeholder. *)
Lemma dashboards_agree_without_nested_scores_witness :
  let items :=
    [ {| it_timestamp := None;
         it_positive := Num 70; it_pos := Undefined;
         it_negative := Undefined; it_neg := Num 20;
         it_neutral := Undefined; it_neu := Undefined;
         it_scores := None; it_sentiment := None;
         it_confidence := Undefined; it_source := None |} ] in
  Forall noNested (slice (-20) items) /\
  Dashboard.fetchRealtime
    (Resolved (RtObject (RtDataArray (map Some items)))) false []
    (constWorld 0 (1 # 2))
  = LegacyDashboard.fetchRealtime
      (Resolved (RtObject (RtDataArray (map Some items)))) false []
      (constWorld 0 (1 # 2)).
Proof.
  intros items.
  assert (H : Forall noNested (slice (-20) items)).
  { constructor; [repeat split | constructor]. }
  split; [exact H|].
  exact (dashboards_agree_without_nested_scores items false []
           (constWorld 0 (1 # 2)) H).
Defined.

(** X4.  One [null] among the last 20 elements of a response discards
    the whole batch: the dashboard with the nested-scores lookup replaces
    the state by its six mock records, the other one appends one
    simulated record to the last 19 entries it had. *)
Theorem null_element_discards_the_batch :
  forall (items : list (option Item)) (st : list FeedEntry) (w : World),
    In None (slice (-20) items) ->
    (exists w',
        fst (Dashboard.fetchRealtime
               (Resolved (RtObject (RtDataArray items))) false st w)
        = fst (Dashboard.generateMockRealtimeData w') /\
        List.length
          (fst (Dashboard.fetchRealtime
                  (Resolved (RtObject (RtDataArray items))) false st w))
        = 6%nat) /\
    (exists s,
        fst (LegacyDashboard.fetchRealtime
               (Resolved (RtObject (RtDataArray items))) false st w)
        = slice (-19) st ++ [s]).
Proof.
  intros items st w Hin. split.
  - unfold Dashboard.fetchRealtime, Dashboard.processResponse, bind;
      cbn beta iota.
    destruct (mapItems_null Dashboard.processItem _ w Hin) as [e He].
    destruct (mapItems Dashboard.processItem _ w) as [r w1];
      cbn [fst] in He; subst r. cbn [negb].
    exists w1. split; [reflexivity|].
    apply Dashboard_generateMockRealtimeData_length.
  - unfold LegacyDashboard.fetchRealtime, LegacyDashboard.processResponse,
      bind; cbn beta iota.
    destruct (mapItems_null LegacyDashboard.processItem _ w Hin) as [e He].
    destruct (mapItems LegacyDashboard.processItem _ w) as [r w1];
      cbn [fst] in He; subst r.
    destruct (LegacyDashboard.newSentiment w1) as [s w2].
    exists s. reflexivity.
Qed.

(** The same for the response [{ data: [item, null] }]. *)
Lemma null_element_discards_the_batch_witness :
  In None (slice (-20) [Some (fullOf "10:15:00 AM" 70 20 10); None]) /\
  List.length
    (fst (Dashboard.fetchRealtime
            (Resolved (RtObject (RtDataArray
               [Some (fullOf "10:15:00 AM" 70 20 10); None]))) false []
            (constWorld 0 0))) = 6%nat.
Proof.
  assert (H : In None (slice (-20) [Some (fullOf "10:15:00 AM" 70 20 10); None]))
    by (right; left; reflexivity).
  split; [exact H|].
  destruct (null_element_discards_the_batch
              [Some (fullOf "10:15:00 AM" 70 20 10); None] []
              (constWorld 0 0) H) as [[w' [_ Hlen]] _].
  exact Hlen.
Defined.

(** X5.  Only the last 20 elements of a response are read: whatever
    comes before them -- any number of items, [null] included -- changes
    neither the new state nor the draws, in either dashboard. *)
Theorem only_the_last_twenty_are_read :
  forall (older newer : list (option Item)) (cancelled : bool)
         (st : list FeedEntry) (w : World),
    (20 <= List.length newer)%nat ->
    Dashboard.fetchRealtime
      (Resolved (RtObject (RtDataArray (older ++ newer)))) cancelled st w
    = Dashboard.fetchRealtime
        (Resolved (RtObject (RtDataArray newer))) cancelled st w /\
    LegacyDashboard.fetchRealtime
      (Resolved (RtObject (RtDataArray (older ++ newer)))) cancelled st w
    = LegacyDashboard.fetchRealtime
        (Resolved (RtObject (RtDataArray newer))) cancelled st w.
Proof.
  intros older newer cancelled st w Hlen.
  unfold Dashboard.fetchRealtime, Dashboard.processResponse,
    LegacyDashboard.fetchRealtime, LegacyDashboard.processResponse;
    cbn beta iota.
  change (-20) with (- Z.of_nat 20).
  rewrite slice_neg_app by lia. split; reflexivity.
Qed.

(** The same for 20 items preceded by a [null]. *)
Lemma only_the_last_twenty_are_read_witness :
  let newer := repeat (Some (fullOf "10:15:00 AM" 70 20 10)) 20 in
  (20 <= List.length newer)%nat /\
  Dashboard.fetchRealtime
    (Resolved (RtObject (RtDataArray ([None] ++ newer)))) false []
    (constWorld 0 0)
  = Dashboard.fetchRealtime
      (Resolved (RtObject (RtDataArray newer))) false [] (constWorld 0 0).
Proof.
  intros newer.
  assert (H : (20 <= List.length newer)%nat) by (cbn; lia).
  split; [exact H|].
  exact (proj1 (only_the_last_twenty_are_read [None] newer false []
                  (constWorld 0 0) H)).
Defined.

(* ================================================================== *)
(** ** More of the code: the client's fallback seen from the dashboard *)

Lemma generateMockRealtimeData_full (limit : option Z) (w : World) :
  Forall fullItem (fst (Api.generateMockRealtimeData limit w)) /\
  later w (snd (Api.generateMockRealtimeData limit w)).
Proof.
  unfold Api.generateMockRealtimeData, bind, Date_now.
  rewrite rt_loop_mapM.
  destruct (mapM_Forall2 (Api.rt_point (clock w)) (fun _ it => fullItem it) w)
    with (l := countdown (Z.to_nat (Api.default 20 limit))) (w := w)
    as [HL HF].
  - intros x w1 L. destruct (rt_point_run (clock w) x w1) as [k [s ->]].
    cbn [fst snd]. split.
    + eapply later_trans; [exact L | apply later_tick].
    + repeat split.
  - apply later_refl.
  - split; [|exact HL].
    eapply Forall2_Forall_r; [|exact HF]. intros x y H; exact H.
Qed.

Lemma fullEntry_stamp (now : Z) (stamps : list (option text)) (ts : list Z)
    (items : list Item) :
  map it_timestamp items = map (fun t => Some (TimeString t)) ts ->
  map fe_timestamp (map (fullEntry now) items) = map TimeString ts.
Proof.
  revert ts; induction items as [|it items IH]; intros [|t ts] H;
    try discriminate H; [reflexivity|].
  cbn [map] in *. injection H as Ht Hrest.
  rewrite (IH ts Hrest). unfold fullEntry at 1; cbn [fe_timestamp].
  rewrite Ht. reflexivity.
Qed.

(** What a poll gives when the request fails and the client recovers:
    the 20 mock records, mapped verbatim, and no draw beyond theirs. *)
Lemma client_fallback_poll (selectedSource : string) (e : Exn)
    (st : list FeedEntry) (w : World) :
  let gen := Api.generateMockRealtimeData (Some 20) w in
  Wiring.fetchRealtime Api.getRealtimeApi Dashboard.fetchRealtime
    selectedSource (Rejected e) false st w
  = (map (fullEntry (clock w)) (fst gen), snd gen) /\
  Wiring.fetchRealtime Api.getRealtimeApi LegacyDashboard.fetchRealtime
    selectedSource (Rejected e) false st w
  = (map (fullEntry (clock w)) (fst gen), snd gen).
Proof.
  intros gen. subst gen.
  unfold Wiring.fetchRealtime, Api.getRealtimeApi, bind.
  cbn [Api.default].
  assert (Hlen := generateMockRealtimeData_length (Some 20) w).
  destruct (generateMockRealtimeData_full (Some 20) w) as [Hfull [Hclock _]].
  destruct (Api.generateMockRealtimeData (Some 20) w) as [mock w1].
  cbn [fst snd Api.default] in *. rewrite Forall_forall in Hfull.
  assert (Hs : slice (-20) mock = mock).
  { change (-20) with (- Z.of_nat 20). apply slice_neg_all; lia. }
  split.
  - unfold Dashboard.fetchRealtime, Dashboard.processResponse, bind;
      cbn [ret]; cbn beta iota.
    rewrite slice_map, Hs.
    rewrite (mapItems_pure _ (fullEntry (clock w1)))
      by (intros x Hx; apply Dashboard_processItem_full; now apply Hfull).
    rewrite Hclock. reflexivity.
  - unfold LegacyDashboard.fetchRealtime, LegacyDashboard.processResponse,
      bind; cbn [ret]; cbn beta iota.
    rewrite slice_map, Hs.
    rewrite (mapItems_pure _ (fullEntry (clock w1)))
      by (intros x Hx; apply LegacyDashboard_processItem_full; now apply Hfull).
    rewrite Hclock. reflexivity.
Qed.

(** X6.  When the request fails and the client recovers, a poll of
    either dashboard replaces the state by the client's 20 mock records,
    each with its own scores and its own timestamp; the dashboard draws
    no placeholder and does not fall back to records of its own. *)
Theorem client_fallback_fills_the_list :
  forall (selectedSource : string) (e : Exn) (st : list FeedEntry) (w : World),
    let mock := fst (Api.generateMockRealtimeData (Some 20) w) in
    let after fetch :=
      Wiring.fetchRealtime Api.getRealtimeApi fetch selectedSource
        (Rejected e) false st w in
    List.length mock = 20%nat /\
    fst (after Dashboard.fetchRealtime) = map (fullEntry (clock w)) mock /\
    fst (after LegacyDashboard.fetchRealtime) = map (fullEntry (clock w)) mock /\
    map (fun x => Some (fe_timestamp x)) (map (fullEntry (clock w)) mock)
    = map it_timestamp mock /\
    snd (after Dashboard.fetchRealtime)
    = snd (Api.generateMockRealtimeData (Some 20) w).
Proof.
  intros selectedSource e st w mock after. subst mock after. cbn beta.
  destruct (client_fallback_poll selectedSource e st w) as [-> ->].
  cbn [fst snd].
  split; [apply generateMockRealtimeData_length|].
  split; [reflexivity|]. split; [reflexivity|]. split; [|reflexivity].
  rewrite (generateMockRealtimeData_stamps (Some 20) w).
  rewrite <- (map_map fe_timestamp Some).
  rewrite (fullEntry_stamp (clock w) [] _ _
             (generateMockRealtimeData_stamps (Some 20) w)).
  now rewrite map_map.
Qed.

(** X7.  After such a poll the feed shows the six latest mock records,
    newest first: the ones stamped one to six minutes before the call, in
    this order. *)
Theorem client_fallback_feed_newest_first :
  forall (selectedSource : string) (e : Exn) (st : list FeedEntry) (w : World),
    let after fetch :=
      fst (Wiring.fetchRealtime Api.getRealtimeApi fetch selectedSource
             (Rejected e) false st w) in
    map fe_timestamp (renderedFeed (after Dashboard.fetchRealtime))
    = map (fun i => TimeString (clock w - i * minute)) [1; 2; 3; 4; 5; 6] /\
    map fe_timestamp (renderedFeed (after LegacyDashboard.fetchRealtime))
    = map (fun i => TimeString (clock w - i * minute)) [1; 2; 3; 4; 5; 6].
Proof.
  intros selectedSource e st w after. subst after. cbn beta.
  destruct (client_fallback_poll selectedSource e st w) as [-> ->].
  cbn [fst].
  assert (H : map fe_timestamp
                (renderedFeed
                   (map (fullEntry (clock w))
                      (fst (Api.generateMockRealtimeData (Some 20) w))))
              = map (fun i => TimeString (clock w - i * minute))
                    [1; 2; 3; 4; 5; 6]).
  { unfold renderedFeed, reverse. rewrite map_rev, <- slice_map.
    rewrite (fullEntry_stamp (clock w) [] _ _
               (generateMockRealtimeData_stamps (Some 20) w)).
    reflexivity. }
  split; exact H.
Qed.

(* ================================================================== *)
(** ** The order of the feed after a fallback *)

(** The feed after the dashboard's own six records. *)
Lemma Dashboard_own_feed (e : Exn) (st : list FeedEntry) (w : World) :
  let feed result :=
    map (fun x => Some (fe_timestamp x))
        (renderedFeed (fst (Dashboard.fetchRealtime result false st w))) in
  let oldest_first :=
    map (fun i => Some (TimeString (clock w - i * minute))) [5; 4; 3; 2; 1; 0] in
  feed (Rejected e) = oldest_first /\
  feed (Resolved (RtObject RtDataFalsy)) = oldest_first /\
  feed (Resolved RtOther) = oldest_first.
Proof. repeat split; reflexivity. Qed.

(** C9.  The feed must show the newest entry first.  It renders
    [realTimeData.slice(-6).reverse()], which does so for a list that
    ends with the newest entry, as the list is after the fallback of the
    client (its six cards are stamped one to six minutes before the call,
    in this order).  The six records that the dashboard with the
    nested-scores lookup generates for itself are listed the other way
    round, the current one first: when the request is rejected, or
    answered by a body without a [data] array, and the run is not
    cancelled, the feed shows them from the record of five minutes ago
    down to the current one, the oldest card first. *)
Theorem own_fallback_feed_oldest_first :
  forall (selectedSource : string) (e : Exn) (st : list FeedEntry) (w : World),
    let stamps l := map (fun x => Some (fe_timestamp x)) (renderedFeed l) in
    let own result := fst (Dashboard.fetchRealtime result false st w) in
    let recovered :=
      fst (Wiring.fetchRealtime Api.getRealtimeApi Dashboard.fetchRealtime
             selectedSource (Rejected e) false st w) in
    stamps (own (Rejected e))
    = map (fun i => Some (TimeString (clock w - i * minute))) [5; 4; 3; 2; 1; 0] /\
    stamps (own (Resolved (RtObject RtDataFalsy))) = stamps (own (Rejected e)) /\
    stamps (own (Resolved RtOther)) = stamps (own (Rejected e)) /\
    ordered Z.lt TimeString (stamps (own (Rejected e))) /\
    ~ ordered Z.gt TimeString (stamps (own (Rejected e))) /\
    ordered Z.gt TimeString (stamps recovered).
Proof.
  intros selectedSource e st w stamps own recovered.
  destruct (Dashboard_own_feed e st w) as (H1 & H2 & H3).
  cbv zeta in H1, H2, H3.
  assert (Hrec : stamps recovered
                 = map (fun t => Some (TimeString t))
                       (map (fun i => clock w - i * minute) [1; 2; 3; 4; 5; 6])).
  { unfold stamps, recovered.
    destruct (client_fallback_poll selectedSource e st w) as [-> _].
    cbn [fst]. rewrite <- (map_map fe_timestamp Some).
    unfold renderedFeed, reverse. rewrite map_rev, <- slice_map.
    rewrite (fullEntry_stamp (clock w) [] _ _
               (generateMockRealtimeData_stamps (Some 20) w)).
    reflexivity. }
  unfold ordered, prints.
  change (stamps (own (Rejected e))) with
    (map (fun x => Some (fe_timestamp x))
       (renderedFeed (fst (Dashboard.fetchRealtime (Rejected e) false st w)))).
  change (stamps (own (Resolved (RtObject RtDataFalsy)))) with
    (map (fun x => Some (fe_timestamp x))
       (renderedFeed (fst (Dashboard.fetchRealtime
                             (Resolved (RtObject RtDataFalsy)) false st w)))).
  change (stamps (own (Resolved RtOther))) with
    (map (fun x => Some (fe_timestamp x))
       (renderedFeed (fst (Dashboard.fetchRealtime
                             (Resolved RtOther) false st w)))).
  rewrite H1, H2, H3, Hrec. clear H1 H2 H3 Hrec stamps own recovered.
  split; [reflexivity|]. split; [reflexivity|]. split; [reflexivity|].
  split; [|split].
  - exists (map (fun i => clock w - i * minute) [5; 4; 3; 2; 1; 0]).
    split; [now rewrite map_map|].
    cbn [map]. unfold minute.
    repeat (constructor; [|repeat (constructor; [lia|]); constructor]).
    constructor.
  - intros [ts [Hp Hs]].
    destruct ts as [|a [|b ts]]; try discriminate Hp.
    cbn [map] in Hp. injection Hp as Ha Hb _. subst a b.
    inversion Hs as [|x l _ Hall]; subst.
    inversion Hall as [|y l' Hgt _]; subst. unfold minute in Hgt. lia.
  - eexists. split; [reflexivity|].
    cbn [map]. unfold minute.
    repeat (constructor; [|repeat (constructor; [lia|]); constructor]).
    constructor.
Qed.

(* ================================================================== *)
(** ** More of the code: the real-time list over many polls *)

Lemma LegacyDashboard_failed_step (t : Polling.Tick) (st : list FeedEntry)
    (w : World) :
  failedPoll t ->
  fst (LegacyDashboard.fetchRealtime (Polling.tk_result t)
         (Polling.tk_cancelled t) st w)
  = slice (-19) st
      ++ [ {| fe_timestamp := TimeString (clock w);
              fe_positive := Num (draws w (cursor w) * 100);
              fe_negative := Num (draws w (S (cursor w)) * 100);
              fe_neutral := Num (draws w (S (S (cursor w))) * 100) |} ].
Proof.
  intros [[e He] Hc]. rewrite He, Hc. reflexivity.
Qed.

(** X8.  Under consecutive failed polls the list of the dashboard that
    simulates locally grows by one entry per poll until it holds 20, and
    stays at 20 from then on. *)
Theorem simulated_list_fills_then_slides :
  forall (ticks : list Polling.Tick) (st : list FeedEntry) (w : World),
    Forall failedPoll ticks ->
    (List.length st <= 20)%nat ->
    List.length (fst (Polling.run LegacyDashboard.fetchRealtime ticks st w))
    = Nat.min 20 (List.length st + List.length ticks).
Proof.
  intros ticks; induction ticks as [|t rest IH]; intros st w Hf Hst.
  - cbn [Polling.run ret fst List.length]. lia.
  - inversion Hf as [|x l Ht Hrest]; subst x l.
    cbn [Polling.run]. unfold bind, Polling.setClock.
    match goal with
    | |- context [LegacyDashboard.fetchRealtime ?r ?c ?s ?w'] =>
        assert (Hstep := LegacyDashboard_failed_step t s w' Ht);
        destruct (LegacyDashboard.fetchRealtime r c s w') as [next w1]
    end.
    cbn [fst] in Hstep.
    assert (Hn : List.length next = (Nat.min 19 (List.length st) + 1)%nat).
    { rewrite Hstep, length_app. change (-19) with (- Z.of_nat 19).
      rewrite slice_neg_length by lia. reflexivity. }
    rewrite (IH next w1 Hrest) by lia.
    rewrite Hn. cbn [List.length]. lia.
Qed.

(** The same for three failed polls from the empty list. *)
Lemma simulated_list_fills_then_slides_witness :
  Forall failedPoll [failedAt 0; failedAt 5000; failedAt 10000] /\
  List.length
    (fst (Polling.run LegacyDashboard.fetchRealtime
            [failedAt 0; failedAt 5000; failedAt 10000] []
            (constWorld 0 (1 # 2)))) = 3%nat.
Proof.
  assert (H : Forall failedPoll [failedAt 0; failedAt 5000; failedAt 10000]).
  { repeat constructor; eexists; reflexivity. }
  split; [exact H|].
  rewrite (simulated_list_fills_then_slides _ [] (constWorld 0 (1 # 2)) H);
    [reflexivity | cbn; lia].
Defined.

Lemma StronglySorted_suffix {A : Type} (R : A -> A -> Prop) (pre l : list A) :
  StronglySorted R (pre ++ l) -> StronglySorted R l.
Proof.
  induction pre as [|x pre IH]; cbn [app]; [tauto|].
  intros H. inversion H; subst. now apply IH.
Qed.

Lemma StronglySorted_snoc {A : Type} (R : A -> A -> Prop) (l : list A) (t : A) :
  StronglySorted R l -> Forall (fun x => R x t) l ->
  StronglySorted R (l ++ [t]).
Proof.
  induction 1 as [|x l Hs IH Hx]; intros Hall; cbn [app].
  - repeat constructor.
  - inversion Hall as [|y l' Hxt Hrest]; subst. constructor; [now apply IH|].
    apply Forall_app. split; [assumption | repeat constructor; assumption].
Qed.

Lemma StronglySorted_rev_le (l : list Z) :
  StronglySorted Z.le l -> StronglySorted Z.ge (rev l).
Proof.
  induction 1 as [|x l Hs IH Hx]; cbn [rev]; [constructor|].
  apply StronglySorted_snoc; [assumption|].
  apply Forall_rev. eapply Forall_impl; [|exact Hx]. intros; cbn beta; lia.
Qed.

Lemma chronological_step (bound t : Z) (st : list FeedEntry)
    (positive negative neutral : jsval) :
  chronological bound st -> bound <= t ->
  chronological t
    (slice (-19) st
       ++ [ {| fe_timestamp := TimeString t; fe_positive := positive;
               fe_negative := negative; fe_neutral := neutral |} ]).
Proof.
  intros (ts & Hmap & Hsorted & Hbound) Hle.
  exists (slice (-19) ts ++ [t]).
  destruct (slice_suffix (-19) ts) as [pre Hpre].
  assert (Hs : StronglySorted Z.le (slice (-19) ts))
    by (rewrite Hpre in Hsorted; eapply StronglySorted_suffix; eassumption).
  assert (Hb : Forall (fun x => x <= bound) (slice (-19) ts))
    by (now apply Forall_slice).
  split; [|split].
  - rewrite !map_app, <- !slice_map, Hmap. reflexivity.
  - apply StronglySorted_snoc; [assumption|].
    eapply Forall_impl; [|exact Hb]. intros; cbn beta in *; lia.
  - apply Forall_app. split.
    + eapply Forall_impl; [|exact Hb]. intros; cbn beta in *; lia.
    + repeat constructor. lia.
Qed.

Lemma chronological_run (ticks : list Polling.Tick) :
  forall (bound : Z) (st : list FeedEntry) (w : World),
    Forall failedPoll ticks ->
    StronglySorted Z.le (map Polling.tk_clock ticks) ->
    Forall (fun t => bound <= Polling.tk_clock t) ticks ->
    chronological bound st ->
    exists bound',
      chronological bound'
        (fst (Polling.run LegacyDashboard.fetchRealtime ticks st w)).
Proof.
  induction ticks as [|t rest IH]; intros bound st w Hf Hs Hb Hc.
  - exists bound. exact Hc.
  - inversion Hf as [|x l Ht Hrest]; subst x l.
    inversion Hb as [|x l Hbt Hbrest]; subst x l.
    cbn [map] in Hs. inversion Hs as [|x l Hs' Hall]; subst x l.
    cbn [Polling.run]. unfold bind, Polling.setClock.
    match goal with
    | |- context [LegacyDashboard.fetchRealtime ?r ?c ?s ?w'] =>
        assert (Hstep := LegacyDashboard_failed_step t s w' Ht);
        destruct (LegacyDashboard.fetchRealtime r c s w') as [next w1]
    end.
    cbn [fst clock] in Hstep. subst next.
    eapply (IH (Polling.tk_clock t)); try assumption.
    + rewrite Forall_map in Hall. exact Hall.
    + apply chronological_step with (bound := bound); assumption.
Qed.

(** X9.  If the clock never runs backwards, consecutive failed polls
    leave the list of the dashboard that simulates locally in
    chronological order, most recent last; the feed then shows its
    entries newest first. *)
Theorem simulated_list_is_chronological :
  forall (ticks : list Polling.Tick) (w : World),
    Forall failedPoll ticks ->
    StronglySorted Z.le (map Polling.tk_clock ticks) ->
    let st := fst (Polling.run LegacyDashboard.fetchRealtime ticks
                     Polling.initialRealTimeData w) in
    (exists ts, map fe_timestamp st = map TimeString ts /\
                StronglySorted Z.le ts) /\
    (exists ts, map fe_timestamp (renderedFeed st) = map TimeString ts /\
                StronglySorted Z.ge ts).
Proof.
  intros ticks w Hf Hs st.
  assert (Hc : exists b, chronological b st).
  { destruct ticks as [|t rest].
    - exists 0. exists []. repeat split; constructor.
    - apply (chronological_run (t :: rest) (Polling.tk_clock t)); try assumption.
      + cbn [map] in Hs. inversion Hs as [|x l _ Hall]; subst.
        constructor; [lia|]. rewrite Forall_map in Hall. exact Hall.
      + exists []. repeat split; constructor. }
  destruct Hc as (b & ts & Hmap & Hsorted & _).
  split; [exists ts; split; assumption|].
  exists (rev (slice (-6) ts)). split.
  - unfold renderedFeed, reverse. rewrite map_rev, <- slice_map, Hmap.
    now rewrite slice_map, map_rev.
  - apply StronglySorted_rev_le.
    destruct (slice_suffix (-6) ts) as [pre Hpre].
    rewrite Hpre in Hsorted. eapply StronglySorted_suffix; eassumption.
Qed.

(** The same for three failed polls, five seconds apart. *)
Lemma simulated_list_is_chronological_witness :
  (Forall failedPoll [failedAt 0; failedAt 5000; failedAt 10000] /\
   StronglySorted Z.le
     (map Polling.tk_clock [failedAt 0; failedAt 5000; failedAt 10000])) /\
  exists ts,
    map fe_timestamp
      (renderedFeed
         (fst (Polling.run LegacyDashboard.fetchRealtime
                 [failedAt 0; failedAt 5000; failedAt 10000]
                 Polling.initialRealTimeData (constWorld 0 (1 # 2)))))
    = map TimeString ts /\ StronglySorted Z.ge ts.
Proof.
  assert (H1 : Forall failedPoll [failedAt 0; failedAt 5000; failedAt 10000]).
  { repeat constructor; eexists; reflexivity. }
  assert (H2 : StronglySorted Z.le
                 (map Polling.tk_clock
                    [failedAt 0; failedAt 5000; failedAt 10000])).
  { cbn. repeat constructor; lia. }
  split; [split; assumption|].
  exact (proj2 (simulated_list_is_chronological _ (constWorld 0 (1 # 2)) H1 H2)).
Defined.

Lemma Dashboard_cancelled_step (result : Outcome RtBody)
    (st : list FeedEntry) (w : World) :
  fst (Dashboard.fetchRealtime result true st w) = st.
Proof.
  unfold Dashboard.fetchRealtime, bind.
  destruct result as [response|error]; [|reflexivity].
  destruct (Dashboard.processResponse response w) as [[ys|e] w1]; reflexivity.
Qed.

Lemma LegacyDashboard_cancelled_step (result : Outcome RtBody)
    (st : list FeedEntry) (w : World) :
  fst (LegacyDashboard.fetchRealtime result true st w) = st.
Proof.
  unfold LegacyDashboard.fetchRealtime, bind.
  destruct result as [rt|e]; [|reflexivity].
  destruct (LegacyDashboard.processResponse rt w) as [[ys|e] w1]; reflexivity.
Qed.

Lemma run_cancelled (fetchRealtime : Polling.Fetch) :
  (forall result st w, fst (fetchRealtime result true st w) = st) ->
  forall ticks st w,
    Forall (fun t => Polling.tk_cancelled t = true) ticks ->
    fst (Polling.run fetchRealtime ticks st w) = st.
Proof.
  intros Hstep ticks; induction ticks as [|t rest IH]; intros st w Hc;
    [reflexivity|].
  inversion Hc as [|x l Ht Hrest]; subst x l.
  cbn [Polling.run]. unfold bind, Polling.setClock. rewrite Ht.
  match goal with
  | |- context [fetchRealtime ?r true ?s ?w'] =>
      assert (H := Hstep r s w');
      destruct (fetchRealtime r true s w') as [next w1]
  end.
  cbn [fst] in H. subst next. now apply IH.
Qed.

(** X10.  Completions that arrive after the effect was cleaned up never
    touch the state: whatever the requests returned -- a body, a failure,
    a [null] element -- the list of either dashboard is what it was. *)
Theorem cancelled_polls_change_nothing :
  forall (ticks : list Polling.Tick) (st : list FeedEntry) (w : World),
    Forall (fun t => Polling.tk_cancelled t = true) ticks ->
    fst (Polling.run Dashboard.fetchRealtime ticks st w) = st /\
    fst (Polling.run LegacyDashboard.fetchRealtime ticks st w) = st.
Proof.
  intros ticks st w Hc. split.
  - apply run_cancelled; [apply Dashboard_cancelled_step | exact Hc].
  - apply run_cancelled; [apply LegacyDashboard_cancelled_step | exact Hc].
Qed.

(** The same for a cancelled poll whose response held [null]. *)
Lemma cancelled_polls_change_nothing_witness :
  let ticks := [ {| Polling.tk_clock := 5000;
                    Polling.tk_result := Resolved (RtArray [None]);
                    Polling.tk_cancelled := true |} ] in
  Forall (fun t => Polling.tk_cancelled t = true) ticks /\
  fst (Polling.run Dashboard.fetchRealtime ticks
         [fullEntry 0 (fullOf "10:15:00 AM" 70 20 10)] (constWorld 0 0))
  = [fullEntry 0 (fullOf "10:15:00 AM" 70 20 10)].
Proof.
  intros ticks.
  assert (H : Forall (fun t => Polling.tk_cancelled t = true) ticks)
    by (repeat constructor).
  split; [exact H|].
  exact (proj1 (cancelled_polls_change_nothing ticks _ (constWorld 0 0) H)).
Defined.

(* ================================================================== *)
(** ** More of the code: what the mock generators put in a record *)

Lemma index_sources (r : Q) :
  (0 <= r)%Q -> (r < 1)%Q ->
  exists s, index Api.sources (Math_floor (r * 4)) = Some s /\ In s Api.sources.
Proof.
  intros H0 H1.
  destruct (floor_draw_bounds r 4 H0 H1 eq_refl) as [Ha Hb].
  change (inject_Z 4) with 4%Q in Ha, Hb.
  unfold index, Math_floor. remember (Qfloor (r * 4)) as F eqn:HF. clear HF.
  rewrite Qfloor_Z.
  assert (Hle : Qle_bool 0 (inject_Z F) = true).
  { apply Qle_bool_iff. change 0%Q with (inject_Z 0). rewrite <- Zle_Qle. lia. }
  rewrite Hle, Qeq_bool_refl. cbn [andb].
  assert (HF : F = 0 \/ F = 1 \/ F = 2 \/ F = 3) by lia.
  destruct HF as [-> | [-> | [-> | ->]]]; eexists; (split; [reflexivity|]);
    cbn; tauto.
Qed.

Lemma rt_point_labelled (now i : Z) (w0 w : World) :
  unit_draws w0 -> later w0 w ->
  later w0 (snd (Api.rt_point now i w)) /\
  labelled (fst (Api.rt_point now i w)).
Proof.
  intros U L. assert (U' := later_unit_draws _ _ L U).
  unfold Api.rt_point, Api.random_real, Api.random_sentiment, bind, ret,
    Math_random; cbn [fst snd draws cursor clock].
  assert (Hconf : forall n, between (7 # 10) 1
                              (Num (draws w n * (3 # 10) + (7 # 10)))).
  { intros n. destruct (U' n). simpl. split; lra. }
  assert (Hsrc : forall n, exists s,
               index Api.sources (Math_floor (draws w n * 4)) = Some s /\
               In s Api.sources).
  { intros n. destruct (U' n). now apply index_sources. }
  assert (Hl : forall k, later w0 (tick k w))
    by (intros k; eapply later_trans; [exact L | apply later_tick]).
  destruct (gt (draws w (S (S (S (cursor w))))) (3 # 10));
    cbn [fst snd draws cursor clock].
  - split; [apply (Hl 6%nat)|].
    split; [apply Hconf|]. split; [apply Hsrc|].
    eexists; split; [reflexivity | cbn; tauto].
  - destruct (gt (draws w (S (S (S (S (cursor w)))))) (5 # 10));
      cbn [fst snd draws cursor clock];
      (split; [apply (Hl 7%nat)|]);
      (split; [apply Hconf|]); (split; [apply Hsrc|]);
      eexists; (split; [reflexivity | cbn; tauto]).
Qed.

(** X11.  Every record of the real-time fallback is labelled: its
    confidence lies between 0.7 and 1, its source is one of the four
    names (the index into the array is never out of range), and its
    sentiment is one of positive, negative and neutral. *)
Theorem mock_records_are_labelled :
  forall (limit : option Z) (w : World),
    unit_draws w ->
    Forall labelled (fst (Api.generateMockRealtimeData limit w)).
Proof.
  intros limit w U. unfold Api.generateMockRealtimeData, bind, Date_now.
  rewrite rt_loop_mapM.
  eapply Forall2_Forall_r with (R := fun _ it => labelled it);
    [intros x y H; exact H|].
  apply (mapM_Forall2 (Api.rt_point (clock w)) _ w); [|apply later_refl].
  intros x w1 L. apply rt_point_labelled; assumption.
Qed.

(** The same for two records drawn with every draw equal to 0.5. *)
Lemma mock_records_are_labelled_witness :
  unit_draws (constWorld 0 (1 # 2)) /\
  Forall labelled
    (fst (Api.generateMockRealtimeData (Some 2) (constWorld 0 (1 # 2)))).
Proof.
  assert (U : unit_draws (constWorld 0 (1 # 2))).
  { intros n; simpl; split; [discriminate | reflexivity]. }
  split; [exact U|].
  exact (mock_records_are_labelled (Some 2) (constWorld 0 (1 # 2)) U).
Defined.

Lemma generateMockHistoricalData_stamps (days : option Z) (w : World) :
  map hi_date (fst (Api.generateMockHistoricalData days w))
  = map (fun i => Some (DateString (clock w - i * day)))
        (countdown (Z.to_nat (Api.default 7 days))).
Proof.
  unfold Api.generateMockHistoricalData, bind, Date_now.
  rewrite hist_loop_mapM.
  apply Forall2_map_eq with
    (h := fun i => Some (DateString (clock w - i * day))).
  apply (mapM_Forall2 (Api.hist_point (clock w)) _ w); [|apply later_refl].
  intros x w1 L. rewrite hist_point_run. cbn [fst snd hi_date].
  split; [|reflexivity].
  eapply later_trans; [exact L | apply later_tick].
Qed.

Lemma generateMockPredictions_stamps (days : option Z) (w : World) :
  map pd_date (fst (Api.generateMockPredictions days w))
  = map (fun i => Some (DateString (clock w + i * day)))
        (countup 1 (Z.to_nat (Api.default 5 days))).
Proof.
  unfold Api.generateMockPredictions, bind, Date_now.
  rewrite pred_loop_mapM.
  apply Forall2_map_eq with
    (h := fun i => Some (DateString (clock w + i * day))).
  apply (mapM_Forall2 (Api.pred_point (clock w)) _ w); [|apply later_refl].
  intros x w1 L. rewrite pred_point_run. cbn [fst snd pd_date].
  split; [|reflexivity].
  eapply later_trans; [exact L | apply later_tick].
Qed.

Lemma countdown_ends (n : nat) :
  hd_error (countdown (S n)) = Some (Z.of_nat (S n)) /\
  last (countdown (S n)) 0 = 1.
Proof.
  split; [reflexivity|].
  induction n as [|n IH]; [reflexivity|].
  change (countdown (S (S n))) with (Z.of_nat (S (S n)) :: countdown (S n)).
  change (countdown (S n)) with (Z.of_nat (S n) :: countdown n) in *.
  exact IH.
Qed.

Lemma countup_ends (n : nat) (i : Z) :
  hd_error (countup i (S n)) = Some i /\
  last (countup i (S n)) 0 = i + Z.of_nat n.
Proof.
  split; [reflexivity|].
  revert i; induction n as [|n IH]; intros i.
  - cbn [countup last]. lia.
  - change (countup i (S (S n))) with (i :: countup (i + 1) (S n)).
    specialize (IH (i + 1)).
    change (countup (i + 1) (S n)) with ((i + 1) :: countup (i + 1 + 1) n) in *.
    cbn [last] in *. rewrite IH. lia.
Qed.

Lemma last_map_some {A B : Type} (g : A -> B) (l : list A) (a : A) :
  l <> [] -> last (map (fun x => Some (g x)) l) None = Some (g (last l a)).
Proof.
  induction l as [|x [|y l] IH]; intros H; [contradiction | reflexivity |].
  cbn [map last] in *. apply IH. discriminate.
Qed.

(** X12.  Neither synthetic series includes the day of the call: for
    [days >= 1] the fallback history runs from [days] days before the
    call to the day before it, and the synthetic forecast from the day
    after the call to [days] days after it. *)
Theorem synthetic_series_exclude_today :
  forall (days : Z) (w : World),
    1 <= days ->
    let history := map hi_date (fst (Api.generateMockHistoricalData (Some days) w)) in
    let forecast := map pd_date (fst (Api.generateMockPredictions (Some days) w)) in
    hd_error history = Some (Some (DateString (clock w - days * day))) /\
    last history None = Some (DateString (clock w - 1 * day)) /\
    hd_error forecast = Some (Some (DateString (clock w + 1 * day))) /\
    last forecast None = Some (DateString (clock w + days * day)).
Proof.
  intros days w Hd history forecast. subst history forecast.
  rewrite generateMockHistoricalData_stamps, generateMockPredictions_stamps.
  cbn [Api.default].
  destruct (Z.to_nat days) as [|n] eqn:En; [lia|].
  assert (Hn : Z.of_nat (S n) = days) by lia.
  destruct (countdown_ends n) as [Hh Hl].
  destruct (countup_ends n 1) as [Hh' Hl'].
  repeat split.
  - change (countdown (S n)) with (Z.of_nat (S n) :: countdown n).
    cbn [map hd_error]. now rewrite Hn.
  - rewrite (last_map_some (fun i => DateString (clock w - i * day)) _ 0)
      by discriminate.
    now rewrite Hl.
  - rewrite (last_map_some (fun i => DateString (clock w + i * day)) _ 0)
      by discriminate.
    rewrite Hl'. do 2 f_equal. lia.
Qed.

(** The same for a week. *)
Lemma synthetic_series_exclude_today_witness :
  1 <= 7 /\
  last (map hi_date (fst (Api.generateMockHistoricalData (Some 7) (constWorld 0 0))))
       None
  = Some (DateString (0 - 1 * day)).
Proof.
  split; [lia|].
  apply (synthetic_series_exclude_today 7 (constWorld 0 0)). lia.
Defined.

(* ================================================================== *)
(** ** More of the code: the charts when a request fails *)

Lemma daysFor_values (selectedTimeRange : string) :
  if Dashboard.inherited selectedTimeRange
  then Dashboard.daysFor selectedTimeRange = Dashboard.NotNumber
  else exists d, Dashboard.daysFor selectedTimeRange = Dashboard.Count d /\
                 In d [1; 7; 30; 90].
Proof.
  unfold Dashboard.daysFor, Dashboard.daysMap, Dashboard.lookup.
  destruct (String.eqb selectedTimeRange "24h") eqn:E1;
    [apply String.eqb_eq in E1; subst; cbn; eexists; split;
       [reflexivity | cbn; tauto]|].
  destruct (String.eqb selectedTimeRange "7d") eqn:E2;
    [apply String.eqb_eq in E2; subst; cbn; eexists; split;
       [reflexivity | cbn; tauto]|].
  destruct (String.eqb selectedTimeRange "30d") eqn:E3;
    [apply String.eqb_eq in E3; subst; cbn; eexists; split;
       [reflexivity | cbn; tauto]|].
  destruct (String.eqb selectedTimeRange "90d") eqn:E4;
    [apply String.eqb_eq in E4; subst; cbn; eexists; split;
       [reflexivity | cbn; tauto]|].
  destruct (Dashboard.inherited selectedTimeRange); [reflexivity|].
  eexists; split; [reflexivity | cbn; tauto].
Qed.

(** X13.  When the request for the history fails, the chart shows the
    seven static rows whatever [selectedTimeRange] holds.  With the
    client that recovers, no error is reported and the rows the client
    generated are dropped, because its envelope says [success: false]:
    1, 7, 30 or 90 rows by the range, and none when the range names a
    property that [daysMap] inherits from [Object.prototype], for then
    [days] is a function or an object and the client's loop never runs.
    With the client of [api.js] the error message is set.  The loading
    flag is cleared either way. *)
Theorem failed_history_shows_static_rows :
  forall (selectedTimeRange selectedSource : string) (e : Exn) (w : World),
    fst (Dashboard.loadHistorical Api.getHistoricalApi
           selectedTimeRange selectedSource (Rejected e) w)
    = {| historicalData := Dashboard.getMockHistoricalData;
         historicalLoading := false;
         historicalError := "" |} /\
    fst (Dashboard.loadHistorical RootApi.getHistoricalApi
           selectedTimeRange selectedSource (Rejected e) w)
    = {| historicalData := Dashboard.getMockHistoricalData;
         historicalLoading := false;
         historicalError := "Failed to load historical data" |} /\
    (exists dropped,
        fst (Api.getHistoricalApi
               (Some (Dashboard.loopCount (Dashboard.daysFor selectedTimeRange)))
               (Some selectedSource) (Rejected e) w)
        = Resolved (HistObject false (Some dropped)) /\
        if Dashboard.inherited selectedTimeRange
        then Dashboard.daysFor selectedTimeRange = Dashboard.NotNumber /\
             dropped = []
        else exists d,
               Dashboard.daysFor selectedTimeRange = Dashboard.Count d /\
               In d [1; 7; 30; 90] /\
               Z.of_nat (List.length dropped) = d).
Proof.
  intros selectedTimeRange selectedSource e w.
  assert (Hv := daysFor_values selectedTimeRange).
  assert (Hl := generateMockHistoricalData_length
                  (Some (Dashboard.loopCount
                           (Dashboard.daysFor selectedTimeRange))) w).
  unfold Dashboard.loadHistorical, Api.getHistoricalApi,
    RootApi.getHistoricalApi, bind.
  cbn [Api.default] in *.
  destruct (Api.generateMockHistoricalData _ w) as [mock w1].
  cbn [fst ret] in *.
  split; [reflexivity|]. split; [reflexivity|].
  exists mock. split; [reflexivity|].
  destruct (Dashboard.inherited selectedTimeRange).
  - split; [exact Hv|]. rewrite Hv in Hl. cbn in Hl.
    now destruct mock.
  - destruct Hv as [d [Hd Hin]]. exists d. split; [exact Hd|].
    split; [exact Hin|]. rewrite Hd in Hl. cbn [Dashboard.loopCount] in Hl.
    rewrite Hl. cbn in Hin. lia.
Qed.

Lemma copyPrediction_run (d : PredItem) (w : World) :
  LegacyDashboard.copyPrediction d w = (copyOf d, w).
Proof. reflexivity. Qed.

(** X14.  When the request for the forecast fails and the client
    recovers, the dashboard that checks [success] charts its five static
    points and drops the client's synthetic ones; the other dashboard
    charts the client's five synthetic points as they are, without
    default bounds.  With the client of [api.js] both chart the static
    points. *)
Theorem failed_forecast_charts :
  forall (e : Exn) (w : World),
    let synthetic := fst (Api.generateMockPredictions (Some 5) w) in
    fst (Wiring.loadPredictions Api.getPredictionsApi
           Dashboard.loadPredictions (Rejected e) w)
    = getMockPredictiveData /\
    fst (Wiring.loadPredictions Api.getPredictionsApi
           LegacyDashboard.loadPredictions (Rejected e) w)
    = map copyOf synthetic /\
    List.length synthetic = 5%nat /\
    fst (Wiring.loadPredictions RootApi.getPredictionsApi
           Dashboard.loadPredictions (Rejected e) w)
    = getMockPredictiveData /\
    fst (Wiring.loadPredictions RootApi.getPredictionsApi
           LegacyDashboard.loadPredictions (Rejected e) w)
    = getMockPredictiveData.
Proof.
  intros e w synthetic. subst synthetic.
  assert (Hl := generateMockPredictions_length (Some 5) w).
  unfold Wiring.loadPredictions, Api.getPredictionsApi,
    RootApi.getPredictionsApi, bind.
  cbn [Api.default] in *.
  destruct (Api.generateMockPredictions (Some 5) w) as [mock w1].
  cbn [fst ret] in *.
  split; [reflexivity|]. split; [|split; [exact Hl | split; reflexivity]].
  unfold LegacyDashboard.loadPredictions, bind.
  rewrite (mapItems_pure LegacyDashboard.copyPrediction copyOf)
    by (intros; apply copyPrediction_run).
  reflexivity.
Qed.

(* ================================================================== *)
(** ** More of the code: the mapping of a prediction item *)

Lemma or_else_chain (a b c : jsval) :
  (truthy a = true /\ or_else (or_else a b) c = a) \/
  (truthy b = true /\ or_else (or_else a b) c = b) \/
  or_else (or_else a b) c = c.
Proof.
  unfold or_else. destruct (truthy a) eqn:Ha; cbn beta iota.
  - left. rewrite Ha. tauto.
  - destruct (truthy b) eqn:Hb; cbn beta iota.
    + right; left. tauto.
    + right; right. reflexivity.
Qed.

(** X15.  The mapping keeps the band whenever the item lets it: if the
    estimate is truthy and every truthy bound the item carries ([upper],
    [upper_bound], [lower], [lower_bound]) is on its side of the estimate,
    the point charted by either dashboard satisfies lower <= predicted <=
    upper, whichever bounds are present and whichever are defaulted. *)
Theorem mapPrediction_keeps_band :
  forall (d : PredItem) (w : World),
    truthy (pd_predicted d) = true ->
    (forall v, pd_upper d = v \/ pd_upper_bound d = v ->
               truthy v = true -> le (pd_predicted d) v) ->
    (forall v, pd_lower d = v \/ pd_lower_bound d = v ->
               truthy v = true -> le v (pd_predicted d)) ->
    (let c := fst (Dashboard.mapPrediction d w) in
     band_ok (cp_lower c) (cp_predicted c) (cp_upper c)) /\
    (let c := fst (LegacyDashboard.mapPrediction d w) in
     band_ok (cp_lower c) (cp_predicted c) (cp_upper c)).
Proof.
  intros d w Ht Hup Hlo.
  destruct (truthy_is_num _ Ht) as [p Hp].
  assert (Hpred : forall x, or_else (or_else (pd_predicted d) x) (Num 0)
                            = pd_predicted d).
  { intros x. unfold or_else. rewrite Ht, Ht. reflexivity. }
  assert (H0 : or_else (pd_predicted d) (Num 0) = pd_predicted d)
    by (unfold or_else; now rewrite Ht).
  assert (Hu : forall dflt, le (pd_predicted d) dflt ->
             le (pd_predicted d)
                (or_else (or_else (pd_upper d) (pd_upper_bound d)) dflt)).
  { intros dflt Hd.
    destruct (or_else_chain (pd_upper d) (pd_upper_bound d) dflt)
      as [[Hv ->] | [[Hv ->] | ->]]; auto. }
  assert (Hl : forall dflt, le dflt (pd_predicted d) ->
             le (or_else (or_else (pd_lower d) (pd_lower_bound d)) dflt)
                (pd_predicted d)).
  { intros dflt Hd.
    destruct (or_else_chain (pd_lower d) (pd_lower_bound d) dflt)
      as [[Hv ->] | [[Hv ->] | ->]]; auto. }
  assert (Hadd : le (pd_predicted d) (add (pd_predicted d) 3))
    by (rewrite Hp; simpl; lra).
  assert (Hsub : le (sub (pd_predicted d) 3) (pd_predicted d))
    by (rewrite Hp; simpl; lra).
  split; cbn [Dashboard.mapPrediction LegacyDashboard.mapPrediction ret fst
              cp_predicted cp_upper cp_lower];
    rewrite ?Hpred, ?H0; split; auto.
Qed.

(** The same for the item
    [{ date: '10/30', predicted: 80, lower: 75, upper_bound: 88 }]. *)
Lemma mapPrediction_keeps_band_witness :
  let c := fst (Dashboard.mapPrediction (bandedEstimate "10/30" 75 80 88)
                  (constWorld 0 0)) in
  band_ok (cp_lower c) (cp_predicted c) (cp_upper c) /\
  cp_lower c = Num 75 /\ cp_upper c = Num 88.
Proof.
  intros c. split; [|split; reflexivity].
  apply (mapPrediction_keeps_band (bandedEstimate "10/30" 75 80 88)
           (constWorld 0 0)).
  - reflexivity.
  - intros v [<- | <-] Hv; [discriminate Hv | simpl; lra].
  - intros v [<- | <-] Hv; [simpl; lra | discriminate Hv].
Defined.

Lemma truthy_number (v : jsval) : truthy v = true -> is_number v.
Proof. intros H. destruct (truthy_is_num _ H) as [p ->]. now exists p. Qed.

Lemma or_else_chain_number (a b c : jsval) :
  is_number c -> is_number (or_else (or_else a b) c).
Proof.
  intros Hc. destruct (or_else_chain a b c) as [[Hv ->] | [[Hv ->] | ->]];
    auto using truthy_number.
Qed.

(** X16.  The dashboard that defaults the bounds from [(d.predicted || 0)]
    never charts a missing value: whatever an item holds or lacks, the
    estimate, both bounds and the confidence of the mapped point are
    numbers (never undefined, null or NaN).  The other dashboard, which
    defaults them from [d.predicted], charts NaN bounds for an item
    without [predicted]. *)
Theorem mapPrediction_charts_numbers :
  (forall (d : PredItem) (w : World),
      numeric_point (fst (Dashboard.mapPrediction d w))) /\
  (forall (d : PredItem) (w : World),
      pd_predicted d = Undefined ->
      truthy (pd_upper d) = false -> truthy (pd_upper_bound d) = false ->
      truthy (pd_lower d) = false -> truthy (pd_lower_bound d) = false ->
      cp_upper (fst (LegacyDashboard.mapPrediction d w)) = NaN /\
      cp_lower (fst (LegacyDashboard.mapPrediction d w)) = NaN).
Proof.
  split.
  - intros d w.
    assert (Hz : is_number (Num 0)) by now exists 0%Q.
    assert (Hp : is_number (or_else (pd_predicted d) (Num 0))).
    { unfold or_else. destruct (truthy (pd_predicted d)) eqn:E;
        [now apply truthy_number | exact Hz]. }
    destruct Hp as [q Hq].
    unfold numeric_point;
      cbn [Dashboard.mapPrediction ret fst cp_predicted cp_upper cp_lower
           cp_confidence].
    rewrite Hq. cbn [add sub].
    repeat split; try apply or_else_chain_number; try (now eexists).
    unfold or_else. destruct (truthy (pd_confidence d)) eqn:E;
      [now apply truthy_number | exact Hz].
  - intros d w Hp Hu Hub Hl Hlb.
    cbn [LegacyDashboard.mapPrediction ret fst cp_upper cp_lower].
    unfold or_else. rewrite Hu, Hub, Hl, Hlb, Hp. split; reflexivity.
Qed.

(** The second part for an item that carries scores only. *)
Lemma mapPrediction_charts_numbers_witness :
  cp_upper (fst (LegacyDashboard.mapPrediction (scoresOnly "10/30" 80 15 5)
                   (constWorld 0 0))) = NaN /\
  numeric_point (fst (Dashboard.mapPrediction (scoresOnly "10/30" 80 15 5)
                        (constWorld 0 0))).
Proof.
  split.
  - apply (proj2 mapPrediction_charts_numbers (scoresOnly "10/30" 80 15 5)
             (constWorld 0 0)); reflexivity.
  - apply (proj1 mapPrediction_charts_numbers).
Defined.

(* ================================================================== *)
(** ** More of the code: the sync button *)

(** X17.  A click on the sync button always ends with [syncing] false.
    With the client that recovers it also always bumps [reloadKey], so
    the charts reload even when the POST failed (the client answered
    with [synced: 0] and a note); with the client of [api.js] a failed
    POST leaves [reloadKey] as it was. *)
Theorem sync_click_reloads :
  forall (http : Outcome SyncBody) (st : SyncState) (w : World),
    fst (Dashboard.handleSync Api.syncTwitter http st w)
    = {| syncing := false; reloadKey := reloadKey st + 1 |} /\
    fst (Dashboard.handleSync RootApi.syncTwitter http st w)
    = {| syncing := false;
         reloadKey := match http with
                      | Resolved _ => reloadKey st + 1
                      | Rejected _ => reloadKey st
                      end |} /\
    (forall e keywords,
        fst (Api.syncTwitter keywords (Rejected e) w)
        = Resolved {| sb_synced := Num 0;
                      sb_timestamp := Some (IsoString (clock w));
                      sb_note := Some "Using mock data - backend not available"%string |}).
Proof.
  intros http st w. destruct http as [body|e]; repeat split.
Qed.

(* ================================================================== *)
(** ** More of the code: the dashboard's own records in the feed *)

(** X18.  When the failure reaches the dashboard with the nested-scores
    lookup (the client of [api.js] rejects), the state becomes its own six
    records, stamped from the instant of the call back to five minutes
    before it, in this order; the feed reverses them, so that its first
    card is the record of five minutes ago and its last the current one. *)
Theorem own_mock_feed_starts_with_the_oldest :
  forall (selectedSource : string) (e : Exn) (st : list FeedEntry) (w : World),
    let after :=
      fst (Wiring.fetchRealtime RootApi.getRealtimeApi Dashboard.fetchRealtime
             selectedSource (Rejected e) false st w) in
    map fe_timestamp after
    = map (fun i => TimeString (clock w - i * 60000)) [0; 1; 2; 3; 4; 5] /\
    map fe_timestamp (renderedFeed after)
    = map (fun i => TimeString (clock w - i * 60000)) [5; 4; 3; 2; 1; 0].
Proof.
  intros selectedSource e st w after. subst after. split; reflexivity.
Qed.
